(** * POS_PROJET: the ERPNext provisioning scripts for TailPOS

  A shallow embedding of [cors_config.py] and [setup_pos.py].  Both
  scripts are straight-line orchestration over the Frappe framework, a
  JSON file on disk, the console and the operating system's random
  generator.  The scripts are embedded as programs of a state and
  exception monad over a world that holds exactly those four things; the
  framework itself is an interface ([Frappe]) whose operations the
  scripts call, so that every statement below is about what the scripts
  do with whatever the framework answers.  A Python string is held in
  UTF-8. *)

From Stdlib Require Import String Ascii List ZArith Lia Bool Floats Uint63.
Import ListNotations.

Set Warnings "-register-all,-inexact-float,-notation-for-abbreviation".
Set Implicit Arguments.

Open Scope string_scope.

(** ** Python values *)

(** The values the scripts handle: [None], booleans, integers, floats,
  strings, lists and dictionaries.  A dictionary keeps its insertion
  order, which is the order [json.dump] writes. *)
Inductive value : Type :=
| VNone
| VBool (b : bool)
| VInt (z : Z)
| VFloat (f : float)
| VStr (s : string)
| VList (l : list value)
| VDict (d : list (string * value)).

(** A framework document is handled through its fields, like a dict. *)
Definition Doc : Type := list (string * value).

(** The exceptions of class [Exception] that the scripts tell apart.
  [frappe.DuplicateEntryError] has a handler of its own in
  [setup_pos.py]; every other exception only meets [except Exception]. *)
Inductive exn : Type :=
| DuplicateEntryError (msg : string)
| TypeError (msg : string)
| KeyError (msg : string)
| OSError (msg : string)
| OtherError (cls msg : string).

(** [str(e)] *)
Definition str_exn (e : exn) : string :=
  match e with
  | DuplicateEntryError m | TypeError m | KeyError m | OSError m
  | OtherError _ m => m
  end.

Definition is_duplicate (e : exn) : bool :=
  match e with DuplicateEntryError _ => true | _ => false end.

Inductive result (A : Type) : Type :=
| Ok (a : A)
| Err (e : exn).
Arguments Ok {A} a.
Arguments Err {A} e.

(** ** Dictionaries *)

Module Dict.
Section Dict.
Variable V : Type.

(** [d.get(k)] *)
Fixpoint get (k : string) (d : list (string * V)) : option V :=
  match d with
  | [] => None
  | (k', v) :: d' => if String.eqb k k' then Some v else get k d'
  end.

(** [k in d] *)
Definition mem (k : string) (d : list (string * V)) : bool :=
  match get k d with Some _ => true | None => false end.

(** [d[k] = v]: an existing key keeps its place, a new one goes last. *)
Fixpoint set (k : string) (v : V) (d : list (string * V))
  : list (string * V) :=
  match d with
  | [] => [(k, v)]
  | (k', v') :: d' =>
      if String.eqb k k' then (k, v) :: d' else (k', v') :: set k v d'
  end.
End Dict.
End Dict.

(** ** Operators on values *)

(** Truth value of an object, as [if x:] and [not x] take it. *)
Definition truthy (v : value) : bool :=
  match v with
  | VNone => false
  | VBool b => b
  | VInt z => negb (Z.eqb z 0)
  | VFloat f => negb (PrimFloat.eqb f 0%float)
  | VStr s => negb (String.eqb s "")
  | VList l => match l with [] => false | _ => true end
  | VDict d => match d with [] => false | _ => true end
  end.

(** [a or b] *)
Definition py_or (a b : value) : value := if truthy a then a else b.

(** [obj[k]] for a string key. *)
Definition getitem (obj : value) (k : string) : result value :=
  match obj with
  | VDict d =>
      match Dict.get k d with
      | Some v => Ok v
      | None => Err (KeyError k)
      end
  | VNone => Err (TypeError "'NoneType' object is not subscriptable")
  | VStr _ => Err (TypeError "string indices must be integers")
  | VList _ => Err (TypeError "list indices must be integers or slices, not str")
  | _ => Err (TypeError "object is not subscriptable")
  end.

(** [obj[k] = v] for a string key: only a dict takes it. *)
Definition setitem (obj : value) (k : string) (v : value) : result value :=
  match obj with
  | VDict d => Ok (VDict (Dict.set k v d))
  | VList _ => Err (TypeError "list indices must be integers or slices, not str")
  | _ => Err (TypeError "object does not support item assignment")
  end.

(** [k in obj] for a string key [k]. *)
Definition contains (obj : value) (k : string) : result bool :=
  match obj with
  | VDict d => Ok (Dict.mem k d)
  | VList l =>
      Ok (existsb (fun x => match x with VStr s => String.eqb s k | _ => false end) l)
  | VStr s =>
      Ok (match index 0 k s with Some _ => true | None => false end)
  | _ => Err (TypeError "argument is not iterable")
  end.

(** A Python string is held in UTF-8: a character is a byte together with
    the continuation bytes (those of the form 10xxxxxx) that follow it. *)
Definition is_continuation (c : ascii) : bool :=
  let n := nat_of_ascii c in andb (Nat.leb 128 n) (Nat.ltb n 192).

(** [s] goes on with the rest of a character. *)
Definition continues (s : string) : bool :=
  match s with
  | String c _ => is_continuation c
  | EmptyString => false
  end.

(** The characters of a string, in order. *)
Fixpoint characters (s : string) : list string :=
  match s with
  | EmptyString => []
  | String c s' =>
      match characters s' with
      | p :: ps =>
          if continues s' then String c p :: ps
          else String c EmptyString :: p :: ps
      | [] => [String c EmptyString]
      end
  end.

(** [obj[:n]]: the first [n] characters of a string, items of a list. *)
Definition slice_to (n : nat) (obj : value) : result value :=
  match obj with
  | VStr s => Ok (VStr (String.concat "" (firstn n (characters s))))
  | VList l => Ok (VList (firstn n l))
  | _ => Err (TypeError "object is not subscriptable")
  end.

(** [int * float] *)
Definition mul_int_float (z : Z) (f : float) : float :=
  PrimFloat.mul (PrimFloat.of_uint63 (Uint63.of_Z z)) f.

(** ** Strings *)

(** [c.upper()] on an ASCII character. *)
Definition upper_ascii (c : ascii) : ascii :=
  let n := nat_of_ascii c in
  if andb (Nat.leb 97 n) (Nat.leb n 122) then ascii_of_nat (n - 32) else c.

(** [c.upper()] on a character: [beyond] answers for the characters
    outside ASCII, which the Unicode tables map, some to several
    characters. *)
Definition upper_character (beyond : string -> string) (c : string) : string :=
  match c with
  | String a EmptyString =>
      if Nat.ltb (nat_of_ascii a) 128 then String (upper_ascii a) EmptyString
      else beyond c
  | _ => beyond c
  end.

(** [s.upper()], character by character. *)
Definition upper (beyond : string -> string) (s : string) : string :=
  String.concat "" (map (upper_character beyond) (characters s)).

(** [s.split(sep)[0]]: the part of [s] before the first [sep]. *)
Definition split_first (sep s : string) : string :=
  match index 0 sep s with
  | Some i => substring 0 i s
  | None => s
  end.

(** [os.path.join(a, b)] on a POSIX system. *)
Definition path_join (a b : string) : string :=
  if prefix "/" b then b
  else if String.eqb a "" then b
  else if String.eqb (substring (String.length a - 1) 1 a) "/" then a ++ b
  else a ++ "/" ++ b.

(** An f-string or a printed line: the concatenation of the [str()] of its
  parts, kept as the list of the parts. *)
Definition text : Type := list value.

Definition lit (s : string) : value := VStr s.

(** ** Random strings *)

Module Secrets.

(** [string.ascii_letters + string.digits] *)
Definition ascii_lowercase : string := "abcdefghijklmnopqrstuvwxyz".
Definition ascii_uppercase : string := "ABCDEFGHIJKLMNOPQRSTUVWXYZ".
Definition ascii_letters : string := ascii_lowercase ++ ascii_uppercase.
Definition digits : string := "0123456789".

(** The system generator: the raw numbers it will hand out, and how many
    it has handed out so far. *)
Record Rng : Type := { draws : nat -> nat; used : nat }.

(** [secrets.choice(seq)] is [seq[randbelow(len(seq))]]. *)
Definition choice (seq : string) (g : Rng) : ascii * Rng :=
  let i := draws g (used g) mod String.length seq in
  (match String.get i seq with Some c => c | None => Ascii.zero end,
     {| draws := draws g; used := S (used g) |}).

(** [''.join(secrets.choice(seq) for _ in range(n))] *)
Fixpoint token (seq : string) (n : nat) (g : Rng) : string * Rng :=
  match n with
  | O => (EmptyString, g)
  | S n' =>
      let (c, g1) := choice seq g in
      let (s, g2) := token seq n' g1 in
      (String c s, g2)
  end.

Definition is_letter_or_digit (c : ascii) : bool :=
  let n := nat_of_ascii c in
  orb (andb (Nat.leb 48 n) (Nat.leb n 57))
      (orb (andb (Nat.leb 65 n) (Nat.leb n 90))
           (andb (Nat.leb 97 n) (Nat.leb n 122))).

Fixpoint all_chars (p : ascii -> bool) (s : string) : bool :=
  match s with
  | EmptyString => true
  | String c s' => andb (p c) (all_chars p s')
  end.

End Secrets.

(** [generate_api_key] and [generate_api_secret] of [setup_pos.py]. *)
Definition generate_api_key (g : Secrets.Rng) : string * Secrets.Rng :=
  Secrets.token (Secrets.ascii_letters ++ Secrets.digits) 20 g.

Definition generate_api_secret (g : Secrets.Rng) : string * Secrets.Rng :=
  Secrets.token (Secrets.ascii_letters ++ Secrets.digits) 40 g.

(** ** The world the scripts run in *)

(** What a path of the file system holds, as [json.load] sees it: nothing,
  something [open] or [json.load] raises on, or a JSON value. *)
Inductive file : Type :=
| Missing
| Unreadable (e : exn)
| Content (v : value).

(** The Frappe framework, as far as the scripts call it.  Operations that
  read answer from the framework's state; operations that write also
  change it.  Each may raise, except writing to the error log and
  rolling back, which the scripts call from their exception handlers. *)
Record Frappe : Type := {
  St : Type;
  (** [frappe.log_error(message, title)] *)
  log_error_op : text -> string -> St -> St;
  (** [frappe.get_all(doctype, limit=n)] *)
  get_all_op : string -> nat -> St -> result (list Doc);
  (** [frappe.db.exists(doctype, name_or_filters)], taken as a truth value *)
  exists_op : string -> value -> St -> result bool;
  (** [frappe.db.get_value(doctype, name_or_filters, fieldname)] *)
  get_value_op : string -> value -> string -> St -> result value;
  (** [frappe.db.set_value(doctype, name, fieldname, value)] *)
  set_value_op : string -> string -> string -> value -> St -> St * result unit;
  (** [frappe.get_doc(doctype, name)]; a single doctype has itself as name *)
  load_op : string -> string -> St -> result Doc;
  (** [frappe.get_doc(dict)]: [Some e] when building the document raises *)
  new_doc_op : Doc -> St -> option exn;
  (** [doc.insert(ignore_permissions=True)]: the document as stored *)
  insert_op : Doc -> St -> St * result Doc;
  (** [doc.save(ignore_permissions=True)] *)
  save_op : Doc -> St -> St * result Doc;
  (** [doc.submit()] *)
  submit_op : Doc -> St -> St * result Doc;
  (** [frappe.db.commit()] *)
  commit_op : St -> St * result unit;
  (** [frappe.db.rollback()] *)
  rollback_op : St -> St;
  (** [frappe.get_site_path(name)] *)
  get_site_path_op : string -> St -> result string;
  (** [frappe.utils.get_bench_path()] *)
  get_bench_path_op : St -> result string;
  (** [frappe.utils.get_url()] *)
  get_url_op : St -> result value;
  (** [frappe.local.site] *)
  local_site_op : St -> result value;
  (** [frappe.local.conf.<attr> = v] *)
  set_conf_op : string -> value -> St -> St * result unit;
  (** the interpreter's part: [c.upper()] for a character outside ASCII *)
  upper_op : string -> string
}.

(** What a run leaves behind for an observer, newest first. *)
Inductive Event : Type :=
| EPrint (t : text)
| ELogError (message : text) (title : string)
| ESetValue (doctype name field : string) (v : value)
| EInsert (d : Doc)
| ESave (d : Doc)
| ESubmit (d : Doc)
| ECommit
| ERollback
| ESetConf (attr : string) (v : value)
| EPrintJson (v : value).

Record World (F : Frappe) : Type := {
  (** the framework's state: database, error log, request-local context *)
  db : St F;
  (** the file system *)
  files : string -> file;
  (** paths the operating system refuses to open for writing, and how *)
  write_refused : string -> option exn;
  (** what [json.dumps(v)] raises, if it does: an integer longer than the
      interpreter converts, a nesting deeper than it follows *)
  json_error : value -> option exn;
  (** what the operating system raises while the open file at a path is
      written and closed *)
  write_fails : string -> option exn;
  (** the system random generator *)
  rng : Secrets.Rng;
  (** what [datetime.now().isoformat()] answers *)
  now : string;
  (** the module global [CORS_HEADERS] of [cors_config.py] *)
  cors_headers : list (string * value);
  (** framework calls and printed lines so far *)
  trace : list Event
}.

(** ** The state and exception monad *)

Section Monad.
Context {F : Frappe}.

(** A Python computation: it changes the world and returns or raises.
    What it did to the world before raising stays done. *)
Definition M (A : Type) : Type := World F -> World F * result A.

Definition ret {A} (a : A) : M A := fun w => (w, Ok a).

Definition raise {A} (e : exn) : M A := fun w => (w, Err e).

Definition bind {A B} (m : M A) (k : A -> M B) : M B :=
  fun w =>
    match m w with
    | (w', Ok a) => k a w'
    | (w', Err e) => (w', Err e)
    end.

(** [try: body except Exception as e: handler e] *)
Definition try_except {A} (body : M A) (handler : exn -> M A) : M A :=
  fun w =>
    match body w with
    | (w', Ok a) => (w', Ok a)
    | (w', Err e) => handler e w'
    end.

(** A pure operation that may raise. *)
Definition lift {A} (r : result A) : M A := fun w => (w, r).

Definition set_db (s : St F) (w : World F) : World F :=
  {| db := s; files := files w; write_refused := write_refused w;
     json_error := json_error w; write_fails := write_fails w;
     rng := rng w; now := now w; cors_headers := cors_headers w;
     trace := trace w |}.

Definition set_files (fs : string -> file) (w : World F) : World F :=
  {| db := db w; files := fs; write_refused := write_refused w;
     json_error := json_error w; write_fails := write_fails w;
     rng := rng w; now := now w; cors_headers := cors_headers w;
     trace := trace w |}.

Definition set_rng (g : Secrets.Rng) (w : World F) : World F :=
  {| db := db w; files := files w; write_refused := write_refused w;
     json_error := json_error w; write_fails := write_fails w;
     rng := g; now := now w; cors_headers := cors_headers w;
     trace := trace w |}.

Definition emit (ev : Event) (w : World F) : World F :=
  {| db := db w; files := files w; write_refused := write_refused w;
     json_error := json_error w; write_fails := write_fails w;
     rng := rng w; now := now w; cors_headers := cors_headers w;
     trace := ev :: trace w |}.

(** A framework read. *)
Definition reading {A} (op : St F -> result A) : M A :=
  fun w => (w, op (db w)).

(** A framework write, noted in the trace when it is called. *)
Definition calling {A} (ev : Event) (op : St F -> St F * result A) : M A :=
  fun w => let (s, r) := op (db w) in (set_db s (emit ev w), r).

(** [print(t)] *)
Definition print (t : text) : M unit := fun w => (emit (EPrint t) w, Ok tt).

(** [os.path.exists(path)] *)
Definition os_path_exists (path : string) : M bool :=
  fun w => (w, Ok (match files w path with Missing => false | _ => true end)).

(** [with open(path, 'r') as f: json.load(f)] *)
Definition json_load (path : string) : M value :=
  fun w =>
    (w, match files w path with
        | Missing => Err (OSError "No such file or directory")
        | Unreadable e => Err e
        | Content v => Ok v
        end).

(** A file that holds the beginning of the text of a JSON object, or
    nothing at all: it is there, and [json.load] raises on it.  The
    scripts dump objects only; the text of the reader's message depends on
    where the text stops, and nothing below depends on it. *)
Definition cut_short : file :=
  Unreadable (OtherError "JSONDecodeError" "Expecting value").

(** What [json.dump(v, f)] raises on the open file at [path], if it
    does. *)
Definition dump_error (w : World F) (path : string) (v : value) : option exn :=
  match json_error w v with
  | Some e => Some e
  | None => write_fails w path
  end.

(** [with open(path, 'w') as f: json.dump(v, f, indent=2)].  Opening
    empties the file; when the dump raises after that, what has been
    written by then stays. *)
Definition json_dump (path : string) (v : value) : M unit :=
  fun w =>
    match write_refused w path with
    | Some e => (w, Err e)
    | None =>
        match dump_error w path v with
        | Some e =>
            (set_files (fun p => if String.eqb p path then cut_short else files w p) w,
             Err e)
        | None =>
            (set_files (fun p => if String.eqb p path then Content v else files w p) w,
             Ok tt)
        end
    end.

(** [print(json.dumps(v, indent=2))] *)
Definition print_json (v : value) : M unit :=
  fun w =>
    match json_error w v with
    | Some e => (w, Err e)
    | None => (emit (EPrintJson v) w, Ok tt)
    end.

(** [secrets]-based generators, on the world's generator. *)
Definition drawing (gen : Secrets.Rng -> string * Secrets.Rng) : M string :=
  fun w => let (s, g) := gen (rng w) in (set_rng g w, Ok s).

Definition frappe_log_error (message : text) (title : string) : M unit :=
  fun w =>
    (set_db (log_error_op F message title (db w))
            (emit (ELogError message title) w), Ok tt).

Definition frappe_get_all (doctype : string) (limit : nat) : M (list Doc) :=
  reading (get_all_op F doctype limit).

Definition frappe_db_exists (doctype : string) (key : value) : M bool :=
  reading (exists_op F doctype key).

Definition frappe_db_get_value (doctype : string) (key : value) (field : string)
  : M value :=
  reading (get_value_op F doctype key field).

Definition frappe_db_set_value (doctype name field : string) (v : value)
  : M unit :=
  calling (ESetValue doctype name field v) (set_value_op F doctype name field v).

Definition frappe_get_doc (doctype name : string) : M Doc :=
  reading (load_op F doctype name).

Definition frappe_new_doc (d : Doc) : M Doc :=
  reading (fun s => match new_doc_op F d s with Some e => Err e | None => Ok d end).

Definition doc_insert (d : Doc) : M Doc := calling (EInsert d) (insert_op F d).

Definition doc_save (d : Doc) : M Doc := calling (ESave d) (save_op F d).

Definition doc_submit (d : Doc) : M Doc := calling (ESubmit d) (submit_op F d).

Definition frappe_db_commit : M unit := calling ECommit (commit_op F).

Definition frappe_db_rollback : M unit :=
  fun w => (set_db (rollback_op F (db w)) (emit ERollback w), Ok tt).

Definition frappe_get_site_path (name : string) : M string :=
  reading (get_site_path_op F name).

Definition frappe_set_conf (attr : string) (v : value) : M unit :=
  calling (ESetConf attr v) (set_conf_op F attr v).

End Monad.

Arguments M : clear implicits.

Declare Scope py_scope.
Delimit Scope py_scope with py.
Notation "x <- m ;; k" := (bind m (fun x => k))
  (at level 100, m at next level, right associativity) : py_scope.
Notation "m ;; k" := (bind m (fun _ => k))
  (at level 100, right associativity) : py_scope.
Open Scope py_scope.

(** [doc.<field>]: a field the document does not carry reads as [None]. *)
Definition doc_get (field : string) (d : Doc) : value :=
  match Dict.get field d with Some v => v | None => VNone end.

(** [doc.<field> = v] *)
Definition doc_set (field : string) (v : value) (d : Doc) : Doc :=
  Dict.set field v d.

(** [doc.append(table, row)] *)
Definition doc_append (table : string) (row : Doc) (d : Doc) : Doc :=
  let rows := match Dict.get table d with Some (VList l) => l | _ => [] end in
  Dict.set table (VList (rows ++ [VDict row])) d.


(** ** cors_config.py *)

(** The module constant [CORS_HEADERS], as the module defines it. *)
Definition CORS_HEADERS : list (string * value) :=
  [ ("Access-Control-Allow-Origin", VStr "*");
    ("Access-Control-Allow-Methods", VStr "GET, POST, PUT, DELETE, OPTIONS, PATCH");
    ("Access-Control-Allow-Headers",
     VStr "Content-Type, Authorization, X-Frappe-CSRF-Token, X-Frappe-Site-Name");
    ("Access-Control-Allow-Credentials", VStr "true");
    ("Access-Control-Max-Age", VStr "86400") ].

(** A response object: [add_cors_headers] only touches its [headers]. *)
Record Response : Type := {
  status : Z;
  headers : list (string * value);
  body : string
}.

(** A dict handed to a caller is either the module's own [CORS_HEADERS]
    object or a dict of the caller's own. *)
Inductive dict_object : Type :=
| ModuleGlobal
| OwnDict (d : list (string * value)).

Section CorsConfig.
Context {F : Frappe}.


(** [config[k1][k2] = v]: the inner object is updated in place. *)
Definition setitem2 (obj : value) (k1 k2 : string) (v : value) : result value :=
  match getitem obj k1 with
  | Err e => Err e
  | Ok inner =>
      match setitem inner k2 v with
      | Err e => Err e
      | Ok inner' => setitem obj k1 inner'
      end
  end.

(** [r] then [k], for operations that may raise. *)
Definition and_then {A B} (r : result A) (k : A -> result B) : result B :=
  match r with
  | Ok a => k a
  | Err e => Err e
  end.

(** The assignments [enable_cors] makes to the config it has loaded. *)
Definition cors_settings (origins config : value) : result value :=
  and_then (setitem config "allow_cors" origins) (fun config =>
  and_then (setitem config "ignore_csrf" (VInt 1)) (fun config =>
  and_then (contains config "api_settings") (fun has =>
  and_then (if negb has
            then setitem config "api_settings" (VDict [])
            else Ok config) (fun config =>
  and_then (setitem2 config "api_settings" "enable_api" (VInt 1)) (fun config =>
  setitem2 config "api_settings" "allow_api_key_authentication" (VInt 1)))))).

Definition enable_cors (origins : value) : M F bool :=
  print [lit "[CORS] Activation de CORS..."] ;;
  try_except
    (site_config_path <- frappe_get_site_path "site_config.json" ;;
     present <- os_path_exists site_config_path ;;
     (if present then
        config <- json_load site_config_path ;;
        config <- lift (cors_settings origins config) ;;
        json_dump site_config_path config ;;
        print [lit "[CORS] Configuration mise a jour dans "; VStr site_config_path] ;;
        try_except
          (frappe_set_conf "allow_cors" origins ;;
           frappe_set_conf "ignore_csrf" (VInt 1))
          (fun _ => ret tt) ;;
        print [lit "[CORS] CORS active avec succes"] ;;
        ret true
      else
        print [lit "[CORS] Fichier "; VStr site_config_path; lit " non trouve"] ;;
        ret false))
    (fun e =>
       print [lit "[CORS] Erreur: "; VStr (str_exn e)] ;;
       ret false).

Definition add_cors_headers (response : option Response)
  : M F (dict_object * option Response) :=
  fun w =>
    (w, Ok (ModuleGlobal,
            match response with
            | Some r =>
                Some {| status := status r;
                        headers :=
                          fold_left (fun h kv => Dict.set (fst kv) (snd kv) h)
                                    (cors_headers w) (headers r);
                        body := body r |}
            | None => None
            end)).


Definition api_settings_of (rate_limit rate_limit_window : value) : value :=
  VDict [ ("enable_api", VInt 1);
          ("allow_api_key_authentication", VInt 1);
          ("rate_limit", rate_limit);
          ("rate_limit_window", rate_limit_window) ].

Definition configure_api_settings (rate_limit rate_limit_window : value) : M F bool :=
  print [lit "[API] Configuration des parametres API..."] ;;
  try_except
    (site_config_path <- frappe_get_site_path "site_config.json" ;;
     present <- os_path_exists site_config_path ;;
     (if present then
        config <- json_load site_config_path ;;
        config <- lift (setitem config "api_settings"
                          (api_settings_of rate_limit rate_limit_window)) ;;
        json_dump site_config_path config ;;
        print [lit "[API] Rate limit: "; rate_limit; lit " requetes / ";
               rate_limit_window; lit "s"]
      else ret tt) ;;
     try_except
       (known <- frappe_db_exists "DocType" (VStr "System Settings") ;;
        if known then
          system_settings <- frappe_get_doc "System Settings" "System Settings" ;;
          if Dict.mem "enable_api" system_settings then
            doc_save (doc_set "enable_api" (VInt 1) system_settings) ;;
            print [lit "[API] System Settings mis a jour"]
          else ret tt
        else ret tt)
       (fun e =>
          print [lit "[API] Note: System Settings non modifie: "; VStr (str_exn e)]) ;;
     print [lit "[API] Parametres API configures avec succes"] ;;
     ret true)
    (fun e =>
       print [lit "[API] Erreur: "; VStr (str_exn e)] ;;
       ret false).

Definition disable_csrf : M F bool :=
  print [lit "[CSRF] Desactivation de la verification CSRF..."] ;;
  try_except
    (site_config_path <- frappe_get_site_path "site_config.json" ;;
     config <- json_load site_config_path ;;
     config <- lift (setitem config "ignore_csrf" (VInt 1)) ;;
     json_dump site_config_path config ;;
     print [lit "[CSRF] Verification CSRF desactivee"] ;;
     print [lit "[CSRF] ATTENTION: Cette configuration reduit la securite!"] ;;
     ret true)
    (fun e =>
       print [lit "[CSRF] Erreur: "; VStr (str_exn e)] ;;
       ret false).

(** What [enable_cors] can update: a JSON object whose [api_settings], if
    it has any, is an object too. *)
Definition accepts_cors_settings (config : value) : bool :=
  match config with
  | VDict d =>
      match Dict.get "api_settings" d with
      | None | Some (VDict _) => true
      | Some _ => false
      end
  | _ => false
  end.

(** The top-level keys of the config that [cors_config.py] assigns. *)
Definition config_keys : list string := ["allow_cors"; "ignore_csrf"; "api_settings"].

(** [d'] maps every other key as [d] does. *)
Definition same_elsewhere (d d' : list (string * value)) : Prop :=
  forall k, ~ In k config_keys -> Dict.get k d' = Dict.get k d.

(** [after_request(response)] *)
Definition after_request (response : Response) : M F (option Response) :=
  r <- add_cors_headers (Some response) ;;
  ret (snd r).

End CorsConfig.

(** ** setup_pos.py *)

(** *** Configuration constants *)

Definition POS_USER_EMAIL : string := "pos_user@example.com".
Definition POS_USER_FIRST_NAME : string := "POS".
Definition POS_USER_LAST_NAME : string := "User".
Definition POS_USER_PASSWORD : string := "pos_password_123".
Definition DEFAULT_WAREHOUSE : string := "Main Store - MS".
Definition DEFAULT_WAREHOUSE_ABBR : string := "MS".
Definition DEFAULT_PRICE_LIST : string := "Standard Selling".
Definition DEFAULT_POS_PROFILE : string := "Default POS Profile".
Definition DEFAULT_COMPANY : string := "My Company".
Definition DEFAULT_COMPANY_ABBR : string := "MC".
Definition DEFAULT_CURRENCY : string := "EUR".
Definition DEFAULT_CUSTOMER : string := "Walk-in Customer".

(** An entry of [SAMPLE_ITEMS]: a dict literal with these four keys. *)
Record item_data : Type := {
  item_code : string;
  item_name : string;
  rate : Z;
  barcode : string
}.

Definition SAMPLE_ITEMS : list item_data :=
  [ {| item_code := "ITEM-001"; item_name := "Produit Test 1"; rate := 100;
       barcode := "1000000001" |};
    {| item_code := "ITEM-002"; item_name := "Produit Test 2"; rate := 250;
       barcode := "1000000002" |};
    {| item_code := "ITEM-003"; item_name := "Produit Test 3"; rate := 50;
       barcode := "1000000003" |};
    {| item_code := "ITEM-004"; item_name := "Produit Test 4"; rate := 500;
       barcode := "1000000004" |};
    {| item_code := "ITEM-005"; item_name := "Produit Test 5"; rate := 75;
       barcode := "1000000005" |} ].

Definition INITIAL_STOCK_QTY : Z := 100.

(** The newline character and ["=" * n]. *)
Definition nl : string := String (ascii_of_nat 10) EmptyString.

Fixpoint rule (n : nat) : string :=
  match n with
  | O => EmptyString
  | S n' => String "="%char (rule n')
  end.

Section SetupPos.
Context {F : Frappe}.

(** [s.upper()] on a value: only a string has the method. *)
Definition str_upper (v : value) : result string :=
  match v with
  | VStr s => Ok (upper (upper_op F) s)
  | _ => Err (OtherError "AttributeError" "object has no attribute 'upper'")
  end.

(** [for x in l: ...], the loop body updating the local variables [s]. *)
Fixpoint for_each {A S : Type} (l : list A) (s : S) (body : S -> A -> M F S)
  : M F S :=
  match l with
  | [] => ret s
  | x :: l' => s' <- body s x ;; for_each l' s' body
  end.

(** [datetime.now().isoformat()] *)
Definition datetime_now : M F string := fun w => (w, Ok (now w)).

(** *** Logging helpers *)

Definition log_info (message : text) : M F unit :=
  print (lit "[INFO] " :: message) ;;
  frappe_log_error message "TailPOS Setup - Info".

Definition log_error (message : text) : M F unit :=
  print (lit "[ERROR] " :: message) ;;
  frappe_log_error message "TailPOS Setup - Error".

Definition log_success (message : text) : M F unit :=
  print (lit "[SUCCESS] " :: message).

(** The world in which a creator's [try] block starts: its opening
    [log_info] line is out. *)
Definition logged (message : text) (w : World F) : World F :=
  fst (log_info message w).

(** The world after a handler's [log_error] line. *)
Definition logged_error (message : text) (w : World F) : World F :=
  fst (log_error message w).

(** *** Company *)

Definition company_payload : Doc :=
  [ ("doctype", VStr "Company");
    ("company_name", VStr DEFAULT_COMPANY);
    ("abbr", VStr DEFAULT_COMPANY_ABBR);
    ("default_currency", VStr DEFAULT_CURRENCY);
    ("country", VStr "France");
    ("enable_perpetual_inventory", VInt 1);
    ("create_chart_of_accounts_based_on", VStr "Standard Template");
    ("chart_of_accounts", VStr "Plan Comptable General (France)") ].

(** The [try] block of [create_company]. *)
Definition create_company_try : M F value :=
  existing_companies <- frappe_get_all "Company" 1 ;;
  match existing_companies with
  | first :: _ =>
      let company_name := doc_get "name" first in
      log_info [lit "Company existante trouvee: "; company_name] ;;
      ret company_name
  | [] =>
      log_info [lit "Creation de la company '"; VStr DEFAULT_COMPANY; lit "'..."] ;;
      company <- frappe_new_doc company_payload ;;
      company <- doc_insert company ;;
      frappe_db_commit ;;
      log_success [lit "Company '"; VStr DEFAULT_COMPANY; lit "' creee avec succes"] ;;
      ret (doc_get "name" company)
  end.

Definition create_company : M F value :=
  log_info [lit "Verification de la company '"; VStr DEFAULT_COMPANY; lit "'..."] ;;
  try_except create_company_try
    (fun e =>
       match e with
       | DuplicateEntryError _ =>
           log_info [lit "Company '"; VStr DEFAULT_COMPANY; lit "' existe deja"] ;;
           ret (VStr DEFAULT_COMPANY)
       | _ =>
           log_error [lit "Erreur creation company: "; VStr (str_exn e)] ;;
           raise e
       end).

(** *** API access *)

Definition setup_api_access (user_email : string) : M F (value * value) :=
  log_info [lit "Configuration de l'acces API pour '"; VStr user_email; lit "'..."] ;;
  try_except
    (user <- frappe_get_doc "User" user_email ;;
     let api_key := doc_get "api_key" user in
     keyed <- (if negb (truthy api_key)
               then k <- drawing generate_api_key ;;
                    ret (VStr k, doc_set "api_key" (VStr k) user)
               else ret (api_key, user)) ;;
     api_secret <- drawing generate_api_secret ;;
     doc_save (doc_set "api_secret" (VStr api_secret) (snd keyed)) ;;
     frappe_db_commit ;;
     log_success [lit "API Key generee pour '"; VStr user_email; lit "'"] ;;
     ret (fst keyed, VStr api_secret))
    (fun e =>
       log_error [lit "Erreur configuration API: "; VStr (str_exn e)] ;;
       ret (VNone, VNone)).

(** *** POS user *)

Definition user_payload : Doc :=
  [ ("doctype", VStr "User");
    ("email", VStr POS_USER_EMAIL);
    ("first_name", VStr POS_USER_FIRST_NAME);
    ("last_name", VStr POS_USER_LAST_NAME);
    ("enabled", VInt 1);
    ("send_welcome_email", VInt 0);
    ("user_type", VStr "System User") ].

Definition required_roles : list string :=
  ["POS User"; "Sales User"; "Stock User"; "Item Manager"].

(** The [try] block of [create_pos_user]. *)
Definition create_pos_user_try : M F value :=
  present <- frappe_db_exists "User" (VStr POS_USER_EMAIL) ;;
  user <- (if present then
             log_info [lit "Utilisateur '"; VStr POS_USER_EMAIL; lit "' existe deja"] ;;
             frappe_get_doc "User" POS_USER_EMAIL
           else
             log_info [lit "Creation de l'utilisateur '"; VStr POS_USER_EMAIL;
                       lit "'..."] ;;
             user <- frappe_new_doc user_payload ;;
             user <- doc_insert user ;;
             frappe_db_set_value "User" POS_USER_EMAIL "new_password"
               (VStr POS_USER_PASSWORD) ;;
             log_success [lit "Utilisateur '"; VStr POS_USER_EMAIL; lit "' cree"] ;;
             ret user) ;;
  user <- for_each required_roles user
            (fun user role_name =>
               known <- frappe_db_exists "Role" (VStr role_name) ;;
               (if negb known then
                  log_info [lit "Creation du role '"; VStr role_name; lit "'..."] ;;
                  role <- frappe_new_doc [ ("doctype", VStr "Role");
                                           ("role_name", VStr role_name) ] ;;
                  doc_insert role ;;
                  ret tt
                else ret tt) ;;
               has_role <- frappe_db_exists "Has Role"
                             (VDict [ ("parent", VStr POS_USER_EMAIL);
                                      ("role", VStr role_name) ]) ;;
               if negb has_role then
                 log_info [lit "Role '"; VStr role_name;
                           lit "' ajoute a l'utilisateur"] ;;
                 ret (doc_append "roles" [("role", VStr role_name)] user)
               else ret user) ;;
  doc_save user ;;
  keys <- setup_api_access POS_USER_EMAIL ;;
  frappe_db_commit ;;
  log_success [lit "Utilisateur POS configure avec succes"] ;;
  ret (VDict [ ("email", VStr POS_USER_EMAIL);
               ("password", VStr POS_USER_PASSWORD);
               ("api_key", fst keys);
               ("api_secret", snd keys);
               ("roles", VList (map VStr required_roles)) ]).

Definition create_pos_user : M F value :=
  log_info [lit "Verification de l'utilisateur POS '"; VStr POS_USER_EMAIL; lit "'..."] ;;
  try_except create_pos_user_try
    (fun e =>
       log_error [lit "Erreur creation utilisateur POS: "; VStr (str_exn e)] ;;
       raise e).

(** *** Warehouse *)

(** [company_name[:2].upper()] *)
Definition company_abbr (company_name : value) : result string :=
  match slice_to 2 company_name with
  | Ok v => str_upper v
  | Err e => Err e
  end.

(** The [try] block of [create_warehouse]. *)
Definition create_warehouse_try (company_name : value) (warehouse_name : string) : M F value :=
  present <- frappe_db_exists "Warehouse" (VStr warehouse_name) ;;
  if present then
    log_info [lit "Entrepot '"; VStr warehouse_name; lit "' existe deja"] ;;
    ret (VStr warehouse_name)
  else
    parent_warehouse <- frappe_db_get_value "Warehouse"
                          (VDict [ ("company", company_name);
                                   ("is_group", VInt 1) ]) "name" ;;
    parent_warehouse <-
      (if negb (truthy parent_warehouse) then
         abbr' <- lift (company_abbr company_name) ;;
         let parent_warehouse := "All Warehouses - " ++ abbr' in
         known <- frappe_db_exists "Warehouse" (VStr parent_warehouse) ;;
         (if negb known then
            root <- frappe_new_doc [ ("doctype", VStr "Warehouse");
                                     ("warehouse_name", VStr "All Warehouses");
                                     ("company", company_name);
                                     ("is_group", VInt 1) ] ;;
            doc_insert root ;;
            log_info [lit "Entrepot racine cree: "; VStr parent_warehouse]
          else ret tt) ;;
         ret (VStr parent_warehouse)
       else ret parent_warehouse) ;;
    log_info [lit "Creation de l'entrepot '"; VStr warehouse_name; lit "'..."] ;;
    warehouse <- frappe_new_doc
                   [ ("doctype", VStr "Warehouse");
                     ("warehouse_name", VStr (split_first " - " DEFAULT_WAREHOUSE));
                     ("company", company_name);
                     ("parent_warehouse", parent_warehouse);
                     ("is_group", VInt 0);
                     ("warehouse_type", VStr "Store") ] ;;
    warehouse <- doc_insert warehouse ;;
    frappe_db_commit ;;
    log_success [lit "Entrepot '"; doc_get "name" warehouse;
                 lit "' cree avec succes"] ;;
    ret (doc_get "name" warehouse).

Definition create_warehouse (company_name : value) : M F value :=
  abbr <- lift (company_abbr company_name) ;;
  let warehouse_name := split_first " - " DEFAULT_WAREHOUSE ++ " - " ++ abbr in
  log_info [lit "Verification de l'entrepot '"; VStr warehouse_name; lit "'..."] ;;
  try_except (create_warehouse_try company_name warehouse_name)
    (fun e =>
       match e with
       | DuplicateEntryError _ =>
           log_info [lit "Entrepot existe deja"] ;;
           ret (VStr warehouse_name)
       | _ =>
           log_error [lit "Erreur creation entrepot: "; VStr (str_exn e)] ;;
           raise e
       end).

(** *** Price list *)

Definition price_list_payload : Doc :=
  [ ("doctype", VStr "Price List");
    ("price_list_name", VStr DEFAULT_PRICE_LIST);
    ("currency", VStr DEFAULT_CURRENCY);
    ("selling", VInt 1);
    ("buying", VInt 0);
    ("enabled", VInt 1) ].

(** The [try] block of [create_price_list]. *)
Definition create_price_list_try : M F value :=
  present <- frappe_db_exists "Price List" (VStr DEFAULT_PRICE_LIST) ;;
  if present then
    log_info [lit "Liste de prix '"; VStr DEFAULT_PRICE_LIST; lit "' existe deja"] ;;
    ret (VStr DEFAULT_PRICE_LIST)
  else
    log_info [lit "Creation de la liste de prix '"; VStr DEFAULT_PRICE_LIST;
              lit "'..."] ;;
    price_list <- frappe_new_doc price_list_payload ;;
    doc_insert price_list ;;
    frappe_db_commit ;;
    log_success [lit "Liste de prix '"; VStr DEFAULT_PRICE_LIST; lit "' creee"] ;;
    ret (VStr DEFAULT_PRICE_LIST).

Definition create_price_list : M F value :=
  log_info [lit "Verification de la liste de prix '"; VStr DEFAULT_PRICE_LIST;
            lit "'..."] ;;
  try_except create_price_list_try
    (fun e =>
       match e with
       | DuplicateEntryError _ => ret (VStr DEFAULT_PRICE_LIST)
       | _ =>
           log_error [lit "Erreur creation liste de prix: "; VStr (str_exn e)] ;;
           raise e
       end).

(** *** POS profile *)

Definition account_filter (company_name : value) (account_type : string) : value :=
  VDict [ ("company", company_name);
          ("account_type", VStr account_type);
          ("is_group", VInt 0) ].

(** The [try] block of [create_pos_profile]. *)
Definition create_pos_profile_try (company_name warehouse_name price_list_name : value) : M F value :=
  present <- frappe_db_exists "POS Profile" (VStr DEFAULT_POS_PROFILE) ;;
  if present then
    log_info [lit "Profil POS '"; VStr DEFAULT_POS_PROFILE; lit "' existe deja"] ;;
    ret (VStr DEFAULT_POS_PROFILE)
  else
    write_off_account <- frappe_db_get_value "Account"
                           (account_filter company_name "Expense Account") "name" ;;
    write_off_cost_center <- frappe_db_get_value "Cost Center"
                               (VDict [ ("company", company_name);
                                        ("is_group", VInt 0) ]) "name" ;;
    income_account <- frappe_db_get_value "Account"
                        (account_filter company_name "Income Account") "name" ;;
    expense_account <- frappe_db_get_value "Account"
                         (account_filter company_name "Expense Account") "name" ;;
    cash_account <- frappe_db_get_value "Account"
                      (account_filter company_name "Cash") "name" ;;
    cash_account <- (if negb (truthy cash_account) then
                       frappe_db_get_value "Account"
                         (account_filter company_name "Bank") "name"
                     else ret cash_account) ;;
    log_info [lit "Creation du profil POS '"; VStr DEFAULT_POS_PROFILE; lit "'..."] ;;
    pos_profile <- frappe_new_doc
                     [ ("doctype", VStr "POS Profile");
                       ("name", VStr DEFAULT_POS_PROFILE);
                       ("company", company_name);
                       ("warehouse", warehouse_name);
                       ("selling_price_list", price_list_name);
                       ("currency", VStr DEFAULT_CURRENCY);
                       ("write_off_account", write_off_account);
                       ("write_off_cost_center", write_off_cost_center);
                       ("income_account", income_account);
                       ("expense_account", expense_account);
                       ("customer", VStr DEFAULT_CUSTOMER);
                       ("disabled", VInt 0) ] ;;
    let pos_profile :=
      if truthy cash_account then
        doc_append "payments" [ ("mode_of_payment", VStr "Cash");
                                ("default", VInt 1);
                                ("account", cash_account) ] pos_profile
      else pos_profile in
    let pos_profile :=
      doc_append "applicable_for_users" [ ("user", VStr POS_USER_EMAIL);
                                          ("default", VInt 1) ] pos_profile in
    pos_profile <- doc_insert pos_profile ;;
    frappe_db_commit ;;
    log_success [lit "Profil POS '"; VStr DEFAULT_POS_PROFILE;
                 lit "' cree avec succes"] ;;
    ret (doc_get "name" pos_profile).

Definition create_pos_profile (company_name warehouse_name price_list_name : value)
  : M F value :=
  log_info [lit "Verification du profil POS '"; VStr DEFAULT_POS_PROFILE; lit "'..."] ;;
  try_except (create_pos_profile_try company_name warehouse_name price_list_name)
    (fun e =>
       match e with
       | DuplicateEntryError _ => ret (VStr DEFAULT_POS_PROFILE)
       | _ =>
           log_error [lit "Erreur creation profil POS: "; VStr (str_exn e)] ;;
           ret VNone
       end).

(** *** Default customer *)

Definition customer_payload : Doc :=
  [ ("doctype", VStr "Customer");
    ("customer_name", VStr DEFAULT_CUSTOMER);
    ("customer_type", VStr "Individual");
    ("customer_group", VStr "Individual");
    ("territory", VStr "All Territories") ].

(** The [try] block of [create_customer]. *)
Definition create_customer_try : M F value :=
  present <- frappe_db_exists "Customer" (VStr DEFAULT_CUSTOMER) ;;
  if present then
    log_info [lit "Client '"; VStr DEFAULT_CUSTOMER; lit "' existe deja"] ;;
    ret (VStr DEFAULT_CUSTOMER)
  else
    log_info [lit "Creation du client '"; VStr DEFAULT_CUSTOMER; lit "'..."] ;;
    customer <- frappe_new_doc customer_payload ;;
    customer <- doc_insert customer ;;
    frappe_db_commit ;;
    log_success [lit "Client '"; VStr DEFAULT_CUSTOMER; lit "' cree avec succes"] ;;
    ret (doc_get "name" customer).

Definition create_customer : M F value :=
  log_info [lit "Verification du client '"; VStr DEFAULT_CUSTOMER; lit "'..."] ;;
  try_except create_customer_try
    (fun e =>
       match e with
       | DuplicateEntryError _ => ret (VStr DEFAULT_CUSTOMER)
       | _ =>
           log_error [lit "Erreur creation client: "; VStr (str_exn e)] ;;
           raise e
       end).

(** *** Sample items *)

Definition create_stock_entry (item_code : string) (warehouse : value) (qty : Z)
  (company : value) : M F unit :=
  try_except
    (valuation_rate <- frappe_db_get_value "Item" (VStr item_code) "valuation_rate" ;;
     stock_entry <- frappe_new_doc
                      [ ("doctype", VStr "Stock Entry");
                        ("stock_entry_type", VStr "Material Receipt");
                        ("company", company);
                        ("items",
                         VList [ VDict [ ("item_code", VStr item_code);
                                         ("t_warehouse", warehouse);
                                         ("qty", VInt qty);
                                         ("basic_rate",
                                          py_or valuation_rate (VInt 100)) ] ]) ] ;;
     stock_entry <- doc_insert stock_entry ;;
     doc_submit stock_entry ;;
     ret tt)
    (fun e =>
       log_error [lit "Erreur creation stock entry: "; VStr (str_exn e)]).

Definition item_payload (it : item_data) : Doc :=
  [ ("doctype", VStr "Item");
    ("item_code", VStr (item_code it));
    ("item_name", VStr (item_name it));
    ("item_group", VStr "Products");
    ("stock_uom", VStr "Nos");
    ("is_stock_item", VInt 1);
    ("is_sales_item", VInt 1);
    ("is_purchase_item", VInt 1);
    ("include_item_in_manufacturing", VInt 0);
    ("standard_rate", VInt (rate it));
    ("valuation_rate", VFloat (mul_int_float (rate it) 0.7));
    ("opening_stock", VInt INITIAL_STOCK_QTY);
    ("description", VStr ("Produit de test: " ++ item_name it)) ].

Definition item_exists_entry (it : item_data) : value :=
  VDict [ ("item_code", VStr (item_code it));
          ("barcode", VStr (barcode it));
          ("exists", VBool true) ].

Definition item_created_entry (it : item_data) : value :=
  VDict [ ("item_code", VStr (item_code it));
          ("barcode", VStr (barcode it));
          ("rate", VInt (rate it));
          ("exists", VBool false) ].

(** The body of the loop over [SAMPLE_ITEMS]; [created_items] is the list
    built so far. *)
Definition create_sample_item (company_name warehouse_name price_list_name : value)
  (created_items : list value) (it : item_data) : M F (list value) :=
  try_except
    (present <- frappe_db_exists "Item" (VStr (item_code it)) ;;
     if present then
       log_info [lit "Produit '"; VStr (item_code it); lit "' existe deja"] ;;
       ret (created_items ++ [item_exists_entry it])%list
     else
       log_info [lit "Creation du produit '"; VStr (item_code it); lit "'..."] ;;
       item <- frappe_new_doc (item_payload it) ;;
       let item := doc_append "barcodes" [ ("barcode", VStr (barcode it));
                                           ("barcode_type", VStr "EAN") ] item in
       doc_insert item ;;
       item_price <- frappe_new_doc
                       [ ("doctype", VStr "Item Price");
                         ("item_code", VStr (item_code it));
                         ("price_list", price_list_name);
                         ("price_list_rate", VInt (rate it));
                         ("currency", VStr DEFAULT_CURRENCY);
                         ("selling", VInt 1) ] ;;
       doc_insert item_price ;;
       try_except
         (create_stock_entry (item_code it) warehouse_name INITIAL_STOCK_QTY
            company_name)
         (fun stock_error =>
            log_error [lit "Erreur stock pour "; VStr (item_code it); lit ": ";
                       VStr (str_exn stock_error)]) ;;
       log_success [lit "Produit '"; VStr (item_code it);
                    lit "' cree avec stock initial"] ;;
       ret (created_items ++ [item_created_entry it])%list)
    (fun e =>
       match e with
       | DuplicateEntryError _ =>
           log_info [lit "Produit '"; VStr (item_code it); lit "' existe deja"] ;;
           ret (created_items ++ [item_exists_entry it])%list
       | _ =>
           log_error [lit "Erreur creation produit '"; VStr (item_code it);
                      lit "': "; VStr (str_exn e)] ;;
           ret created_items
       end).

Definition create_sample_items (company_name warehouse_name price_list_name : value)
  : M F (list value) :=
  log_info [lit "Creation des produits d'exemple..."] ;;
  known <- frappe_db_exists "Item Group" (VStr "Products") ;;
  (if negb known then
     try_except
       (item_group <- frappe_new_doc [ ("doctype", VStr "Item Group");
                                       ("item_group_name", VStr "Products");
                                       ("parent_item_group", VStr "All Item Groups") ] ;;
        doc_insert item_group ;;
        log_info [lit "Groupe 'Products' cree"])
       (fun _ => ret tt)
   else ret tt) ;;
  created_items <- for_each SAMPLE_ITEMS []
                     (create_sample_item company_name warehouse_name price_list_name) ;;
  frappe_db_commit ;;
  log_success [VInt (Z.of_nat (List.length created_items)); lit " produits configures"] ;;
  ret created_items.

(** *** Credentials file *)

(** The handler of [save_credentials]: the credentials go to the
    console.  What [json.dumps] raises there leaves the handler, and
    [save_credentials] with it. *)
Definition print_credentials (e : exn) (credentials_data : value) : M F unit :=
  log_error [lit "Erreur sauvegarde credentials: "; VStr (str_exn e)] ;;
  print [lit (nl ++ rule 60)] ;;
  print [lit "CREDENTIALS (a sauvegarder manuellement):"] ;;
  print [lit (rule 60)] ;;
  print_json credentials_data ;;
  print [lit (rule 60 ++ nl)].

(** [save_credentials] writes into the dict it is given, which is the one
    [main] goes on to return: the dict as the call leaves it is the result
    here.  The handler prints the dict as it is when the exception comes,
    with the date once that has been set. *)
Definition save_credentials (credentials_data : value) : M F value :=
  fun w =>
    match (bench_path <- reading (get_bench_path_op F) ;;
           let file_path := path_join bench_path "pos_credentials.json" in
           stamp <- datetime_now ;;
           dated <- lift (setitem credentials_data "generated_date" (VStr stamp)) ;;
           ret (file_path, dated)) w with
    | (w1, Err e) => (print_credentials e credentials_data ;; ret credentials_data) w1
    | (w1, Ok (file_path, dated)) =>
        try_except
          (json_dump file_path dated ;;
           log_success [lit "Credentials sauvegardes dans: "; VStr file_path] ;;
           ret dated)
          (fun e => print_credentials e dated ;; ret dated) w1
    end.

(** *** Main *)

(** [main]'s [try] block is cut in three: steps 1 to 5, step 6, and the
    rest. *)
Record seeded_names : Type := {
  company_name_of : value;
  pos_user_of : value;
  warehouse_name_of : value;
  price_list_name_of : value;
  customer_name_of : value
}.

Definition main_begin : M F seeded_names :=
  company_name <- create_company ;;
  print [lit "[1/8] Company: "; company_name] ;;
  pos_user <- create_pos_user ;;
  email <- lift (getitem pos_user "email") ;;
  print [lit "[2/8] Utilisateur POS: "; email] ;;
  warehouse_name <- create_warehouse company_name ;;
  print [lit "[3/8] Entrepot: "; warehouse_name] ;;
  price_list_name <- create_price_list ;;
  print [lit "[4/8] Liste de prix: "; price_list_name] ;;
  customer_name <- create_customer ;;
  print [lit "[5/8] Client: "; customer_name] ;;
  ret {| company_name_of := company_name; pos_user_of := pos_user;
         warehouse_name_of := warehouse_name;
         price_list_name_of := price_list_name;
         customer_name_of := customer_name |}.

Definition main_finish (company_name pos_user warehouse_name price_list_name
                          customer_name pos_profile_name : value) : M F value :=
  print [lit "[6/8] Profil POS: ";
         py_or pos_profile_name (VStr "Non cree (voir logs)")] ;;
  sample_items <- create_sample_items company_name warehouse_name price_list_name ;;
  print [lit "[7/8] Produits: "; VInt (Z.of_nat (List.length sample_items));
         lit " produits configures"] ;;
  url <- reading (get_url_op F) ;;
  site_name <- reading (local_site_op F) ;;
  credentials <- save_credentials
                   (VDict [ ("generated_date", VStr "");
                            ("pos_user", pos_user);
                            ("server", VDict [ ("url", url);
                                               ("site_name", site_name) ]);
                            ("pos_profile",
                             VDict [ ("name", pos_profile_name);
                                     ("warehouse", warehouse_name);
                                     ("price_list", price_list_name);
                                     ("company", company_name) ]);
                            ("default_customer", customer_name);
                            ("sample_items", VList sample_items) ]) ;;
  print [lit "[8/8] Credentials sauvegardes"] ;;
  print [lit (nl ++ rule 60)] ;;
  print [lit "  CONFIGURATION TERMINEE AVEC SUCCES!"] ;;
  print [lit (rule 60)] ;;
  url <- reading (get_url_op F) ;;
  email <- lift (getitem pos_user "email") ;;
  password <- lift (getitem pos_user "password") ;;
  api_key <- lift (getitem pos_user "api_key") ;;
  api_secret <- lift (getitem pos_user "api_secret") ;;
  secret_start <- lift (slice_to 10 api_secret) ;;
  print [ lit (nl ++ "Informations de connexion TailPOS:" ++ nl
               ++ "----------------------------------" ++ nl ++ "URL Serveur: ");
          url;
          lit (nl ++ "Utilisateur: "); email;
          lit (nl ++ "Mot de passe: "); password;
          lit (nl ++ "API Key: "); api_key;
          lit (nl ++ "API Secret: "); secret_start;
          lit ("... (voir pos_credentials.json)" ++ nl ++ nl ++ "Entrepot: ");
          warehouse_name;
          lit (nl ++ "Liste de prix: "); price_list_name;
          lit (nl ++ "Client par defaut: "); customer_name;
          lit (nl ++ nl ++ "Produits d'exemple: ");
          VInt (Z.of_nat (List.length sample_items));
          lit " produits avec "; VInt INITIAL_STOCK_QTY;
          lit (" unites chacun" ++ nl) ] ;;
  print [lit (rule 60 ++ nl)] ;;
  ret credentials.

Definition main_steps : M F value :=
  names <- main_begin ;;
  pos_profile_name <- create_pos_profile (company_name_of names)
                        (warehouse_name_of names) (price_list_name_of names) ;;
  main_finish (company_name_of names) (pos_user_of names) (warehouse_name_of names)
    (price_list_name_of names) (customer_name_of names) pos_profile_name.

(** The world after the banner that [main] prints before its [try]. *)
Definition after_banner (w : World F) : World F :=
  emit (EPrint [lit (rule 60 ++ nl)])
    (emit (EPrint [lit "  Version 2.0.0"])
       (emit (EPrint [lit "  CONFIGURATION ERPNEXT POUR TAILPOS"])
          (emit (EPrint [lit (nl ++ rule 60)]) w))).

Definition main : M F value :=
  print [lit (nl ++ rule 60)] ;;
  print [lit "  CONFIGURATION ERPNEXT POUR TAILPOS"] ;;
  print [lit "  Version 2.0.0"] ;;
  print [lit (rule 60 ++ nl)] ;;
  try_except main_steps
    (fun e =>
       log_error [lit "Erreur fatale: "; VStr (str_exn e)] ;;
       frappe_db_rollback ;;
       print [lit (nl ++ "[ERREUR] La configuration a echoue. Voir les logs pour details.")] ;;
       raise e).

End SetupPos.

(** ** A framework to run the scripts on

    A small in-memory framework: documents live in a list, named per
    doctype the way ERPNext names them, with a mandatory-field rule for the
    POS Profile.  It serves to run the scripts on concrete sites. *)

Module Demo.

Record state : Type := {
  docs : list Doc;
  saved : list Doc;
  error_log : list (text * string);
  conf : list (string * value)
}.

Definition value_eqb (a b : value) : bool :=
  match a, b with
  | VNone, VNone => true
  | VBool x, VBool y => Bool.eqb x y
  | VInt x, VInt y => Z.eqb x y
  | VStr x, VStr y => String.eqb x y
  | _, _ => false
  end.

Definition is_doc (doctype : string) (name : value) (d : Doc) : bool :=
  andb (value_eqb (doc_get "doctype" d) (VStr doctype))
       (value_eqb (doc_get "name" d) name).

Definition matches (doctype : string) (filters : Doc) (d : Doc) : bool :=
  andb (value_eqb (doc_get "doctype" d) (VStr doctype))
       (forallb (fun kv => value_eqb (doc_get (fst kv) d) (snd kv)) filters).

(** A child row of doctype "Has Role" lives in the [roles] table of its
    parent user. *)
Definition has_role_row (filters : Doc) (d : Doc) : bool :=
  andb (is_doc "User" (doc_get "parent" filters) d)
       (match doc_get "roles" d with
        | VList rows =>
            existsb (fun row =>
                       match row with
                       | VDict r => value_eqb (doc_get "role" r) (doc_get "role" filters)
                       | _ => false
                       end) rows
        | _ => false
        end).

Definition selects (doctype : string) (key : value) (d : Doc) : bool :=
  match key with
  | VDict filters =>
      if String.eqb doctype "Has Role" then has_role_row filters d
      else matches doctype filters d
  | name => is_doc doctype name d
  end.

(** The company's abbreviation, which ERPNext appends to warehouse names. *)
Definition abbr_of (company : value) (ds : list Doc) : string :=
  match find (is_doc "Company" company) ds with
  | Some c => match doc_get "abbr" c with VStr a => a | _ => "" end
  | None => ""
  end.

Definition autoname (ds : list Doc) (d : Doc) : value :=
  match doc_get "doctype" d with
  | VStr "Company" => doc_get "company_name" d
  | VStr "User" => doc_get "email" d
  | VStr "Role" => doc_get "role_name" d
  | VStr "Warehouse" =>
      match doc_get "warehouse_name" d with
      | VStr n => VStr (n ++ " - " ++ abbr_of (doc_get "company" d) ds)
      | v => v
      end
  | VStr "Price List" => doc_get "price_list_name" d
  | VStr "Customer" => doc_get "customer_name" d
  | VStr "Item" => doc_get "item_code" d
  | VStr "Item Group" => doc_get "item_group_name" d
  | VStr "Item Price" => doc_get "item_code" d
  | VStr "Stock Entry" => VStr "MAT-STE-0001"
  | _ => doc_get "name" d
  end.

(** What the controllers refuse. *)
Definition refused (d : Doc) : option exn :=
  match doc_get "doctype" d with
  | VStr "POS Profile" =>
      if truthy (doc_get "write_off_account" d) then None
      else Some (OtherError "MandatoryError" "write_off_account")
  | _ => None
  end.

Definition with_docs (ds : list Doc) (s : state) : state :=
  {| docs := ds; saved := saved s; error_log := error_log s; conf := conf s |}.

Definition insert (d : Doc) (s : state) : state * result Doc :=
  match refused d with
  | Some e => (s, Err e)
  | None =>
      let name := autoname (docs s) d in
      match doc_get "doctype" d with
      | VStr doctype =>
          if existsb (is_doc doctype name) (docs s)
          then (s, Err (DuplicateEntryError doctype))
          else let d' := Dict.set "name" name d in
               (with_docs (docs s ++ [d']) s, Ok d')
      | _ => (s, Err (OtherError "ImportError" "doctype"))
      end
  end.

(** [save] puts [d] in the place of the documents it stands for. *)
Definition put (doctype : string) (d x : Doc) : Doc :=
  if is_doc doctype (doc_get "name" d) x then d else x.

Definition save (d : Doc) (s : state) : state * result Doc :=
  match refused d, doc_get "doctype" d with
  | Some e, _ => (s, Err e)
  | None, VStr doctype => (with_docs (map (put doctype d) (docs s)) s, Ok d)
  | None, _ => (s, Err (OtherError "ImportError" "doctype"))
  end.

Definition set_value (doctype name field : string) (v : value) (s : state)
  : state * result unit :=
  (with_docs (map (fun x => if is_doc doctype (VStr name) x
                            then Dict.set field v x else x) (docs s)) s,
   Ok tt).

(** [c.upper()] for the characters of Latin-1 outside ASCII, which UTF-8
    holds in two bytes: the small letters from U+00E0 to U+00FE but the
    division sign go to the capital 32 places before, the sharp s to
    'SS', the y with diaeresis to U+0178 and the micro sign to U+039C.
    The demo sites have no name with a character beyond Latin-1. *)
Definition latin1_upper (c : string) : string :=
  match c with
  | String a (String b EmptyString) =>
      let m := nat_of_ascii a in
      let n := nat_of_ascii b in
      if Nat.eqb m 195 then
        if Nat.eqb n 159 then "SS"
        else if Nat.eqb n 191
             then String (ascii_of_nat 197) (String (ascii_of_nat 184) EmptyString)
        else if andb (Nat.leb 160 n) (andb (Nat.leb n 190) (negb (Nat.eqb n 183)))
             then String a (String (ascii_of_nat (n - 32)) EmptyString)
        else c
      else if andb (Nat.eqb m 194) (Nat.eqb n 181)
           then String (ascii_of_nat 206) (String (ascii_of_nat 156) EmptyString)
      else c
  | _ => c
  end.

Definition frappe : Frappe :=
  {| St := state;
     log_error_op := fun message title s =>
       {| docs := docs s; saved := saved s;
          error_log := (message, title) :: error_log s; conf := conf s |};
     get_all_op := fun doctype limit s =>
       Ok (firstn limit (filter (matches doctype []) (docs s)));
     exists_op := fun doctype key s => Ok (existsb (selects doctype key) (docs s));
     get_value_op := fun doctype key field s =>
       Ok (match find (selects doctype key) (docs s) with
           | Some d => doc_get field d
           | None => VNone
           end);
     set_value_op := set_value;
     load_op := fun doctype name s =>
       match find (is_doc doctype (VStr name)) (docs s) with
       | Some d => Ok d
       | None => Err (OtherError "DoesNotExistError" name)
       end;
     new_doc_op := fun _ _ => None;
     insert_op := insert;
     save_op := save;
     submit_op := fun d s => save (Dict.set "docstatus" (VInt 1) d) s;
     commit_op := fun s =>
       ({| docs := docs s; saved := docs s; error_log := error_log s;
           conf := conf s |}, Ok tt);
     rollback_op := fun s => with_docs (saved s) s;
     get_site_path_op := fun name _ => Ok ("./pos.localhost/" ++ name);
     get_bench_path_op := fun _ => Ok "/home/frappe/frappe-bench";
     get_url_op := fun _ => Ok (VStr "http://pos.localhost:8000");
     local_site_op := fun _ => Ok (VStr "pos.localhost");
     set_conf_op := fun attr v s =>
       ({| docs := docs s; saved := saved s; error_log := error_log s;
           conf := Dict.set attr v (conf s) |}, Ok tt);
     upper_op := latin1_upper |}.

(** [z] has more than 4300 decimal digits.  The power of ten lies between
    2^14284 and 2^14285, so the length in bits settles most cases. *)
Definition over_4300_digits (z : Z) : bool :=
  let bits := Z.log2 (Z.abs z) in
  if Z.ltb bits 14284 then false
  else if Z.ltb 14284 bits then true
  else Z.leb (10 ^ 4300) (Z.abs z).

(** The interpreter's limit on integers turned into text: 4300 digits. *)
Fixpoint long_integer (v : value) : bool :=
  match v with
  | VInt z => over_4300_digits z
  | VList l => existsb long_integer l
  | VDict d => existsb (fun kv : string * value => let (_, x) := kv in long_integer x) d
  | _ => false
  end.

Definition digits_limit (v : value) : option exn :=
  if long_integer v
  then Some (OtherError "ValueError"
               "Exceeds the limit (4300 digits) for integer string conversion")
  else None.

(** A site on the given documents, with the given [site_config.json]. *)
Definition site (ds : list Doc) (site_config : file) : World frappe :=
  {| db := ({| docs := ds; saved := ds; error_log := []; conf := [] |} : St frappe);
     files := fun p => if String.eqb p "./pos.localhost/site_config.json"
                       then site_config else Missing;
     write_refused := fun _ => None;
     json_error := digits_limit;
     write_fails := fun _ => None;
     rng := {| Secrets.draws := fun n => 7 * n + 3; Secrets.used := 0 |};
     now := "2025-01-17T10:00:00";
     cors_headers := CORS_HEADERS;
     trace := [] |}.

(** A company with its chart of accounts, as the setup wizard leaves it. *)
Definition company_docs : list Doc :=
  [ [ ("doctype", VStr "Company"); ("name", VStr "Myriad Retail");
      ("company_name", VStr "Myriad Retail"); ("abbr", VStr "MY") ];
    [ ("doctype", VStr "Warehouse"); ("name", VStr "All Warehouses - MY");
      ("company", VStr "Myriad Retail"); ("is_group", VInt 1) ] ].

Definition account_docs : list Doc :=
  [ [ ("doctype", VStr "Account"); ("name", VStr "Cost of Goods Sold - MY");
      ("company", VStr "Myriad Retail"); ("account_type", VStr "Expense Account");
      ("is_group", VInt 0) ];
    [ ("doctype", VStr "Account"); ("name", VStr "Sales - MY");
      ("company", VStr "Myriad Retail"); ("account_type", VStr "Income Account");
      ("is_group", VInt 0) ];
    [ ("doctype", VStr "Account"); ("name", VStr "Cash - MY");
      ("company", VStr "Myriad Retail"); ("account_type", VStr "Cash");
      ("is_group", VInt 0) ];
    [ ("doctype", VStr "Cost Center"); ("name", VStr "Main - MY");
      ("company", VStr "Myriad Retail"); ("is_group", VInt 0) ] ].

Definition sample_config : value :=
  VDict [ ("db_name", VStr "_5e5899d8398b5f7b");
          ("db_password", VStr "s3cr3t");
          ("api_settings", VDict [ ("rate_limit", VInt 10) ]);
          ("developer_mode", VInt 1) ].

(** A user without API credentials yet. *)
Definition user_docs : list Doc :=
  [ [ ("doctype", VStr "User"); ("name", VStr "cashier@example.com");
      ("email", VStr "cashier@example.com"); ("api_key", VNone);
      ("api_secret", VNone) ] ].

(** A site with that user only. *)
Definition user_site : World frappe := site user_docs Missing.

(** A site with a company and its accounts. *)
Definition prepared_site : World frappe :=
  site (company_docs ++ account_docs) (Content sample_config).

(** A site with a company but no chart of accounts. *)
Definition bare_site : World frappe :=
  site company_docs (Content sample_config).

End Demo.

(** ** Calls into cors_config.py *)


Section CorsCalls.
Context {F : Frappe}.




End CorsCalls.

(** ** Reasoning about runs *)

Section Run.
Context {F : Frappe}.

(** From a world where [I] holds, [m] ends in a world where [I] holds, with
    a result, returned or raised, that satisfies [R]. *)
Definition run {A} (I : World F -> Prop) (m : M F A) (R : result A -> Prop) : Prop :=
  forall w, I w -> I (fst (m w)) /\ R (snd (m w)).

(** The events a run from [w] to [w'] added. *)
Definition added (w w' : World F) (evs : list Event) : Prop :=
  trace w' = (evs ++ trace w)%list.

(** The events of [w'] that [w] does not have yet. *)
Definition new_events (w w' : World F) : list Event :=
  firstn (List.length (trace w') - List.length (trace w)) (trace w').

(** [ev] is an [insert] of a document of the given doctype. *)
Definition inserts_doctype (doctype : string) (ev : Event) : bool :=
  match ev with
  | EInsert d =>
      match doc_get "doctype" d with
      | VStr dt => String.eqb dt doctype
      | _ => false
      end
  | _ => false
  end.

End Run.

(** ** cors_config.py: checking and applying the whole configuration *)

(** [obj.get(k, default)]: only a dict has the method. *)
Definition py_get (obj : value) (k : string) (default : value) : result value :=
  match obj with
  | VDict d => Ok (match Dict.get k d with Some v => v | None => default end)
  | _ => Err (OtherError "AttributeError" "object has no attribute 'get'")
  end.

(** [v == 1] *)
Definition eq_one (v : value) : bool :=
  match v with
  | VInt z => Z.eqb z 1
  | VBool b => b
  | VFloat f => PrimFloat.eqb f 1%float
  | _ => false
  end.

(** The dict [config_status] of [check_cors_config], with its four keys. *)
Record config_status : Type := {
  cors_enabled : bool;
  csrf_disabled : bool;
  api_enabled : bool;
  status_origins : value
}.

Definition initial_status : config_status :=
  {| cors_enabled := false; csrf_disabled := false; api_enabled := false;
     status_origins := VNone |}.

(** The assignments [check_cors_config] makes to [config_status] from the
    config it has loaded: the status as far as they got, and the exception
    that stopped them, if any. *)
Definition read_status (config : value) (s : config_status)
  : config_status * option exn :=
  match contains config "allow_cors" with
  | Err e => (s, Some e)
  | Ok present =>
      let s := {| cors_enabled := present; csrf_disabled := csrf_disabled s;
                  api_enabled := api_enabled s; status_origins := status_origins s |} in
      match py_get config "allow_cors" VNone with
      | Err e => (s, Some e)
      | Ok allowed =>
          let s := {| cors_enabled := cors_enabled s;
                      csrf_disabled := csrf_disabled s;
                      api_enabled := api_enabled s; status_origins := allowed |} in
          match py_get config "ignore_csrf" (VInt 0) with
          | Err e => (s, Some e)
          | Ok ignore =>
              let s := {| cors_enabled := cors_enabled s;
                          csrf_disabled := eq_one ignore;
                          api_enabled := api_enabled s; status_origins := status_origins s |} in
              match py_get config "api_settings" (VDict []) with
              | Err e => (s, Some e)
              | Ok api_settings =>
                  match py_get api_settings "enable_api" (VInt 0) with
                  | Err e => (s, Some e)
                  | Ok enabled =>
                      ({| cors_enabled := cors_enabled s;
                          csrf_disabled := csrf_disabled s;
                          api_enabled := eq_one enabled;
                          status_origins := status_origins s |}, None)
                  end
              end
          end
      end
  end.

Section CorsConfigRest.
Context {F : Frappe}.

(** [check_cors_config] returns the status dict as the assignments have
    left it, also when an exception has cut them short. *)
Definition check_cors_config : M F config_status :=
  print [lit "[CHECK] Verification de la configuration CORS..."] ;;
  fun w =>
    match (site_config_path <- frappe_get_site_path "site_config.json" ;;
           present <- os_path_exists site_config_path ;;
           if present then
             config <- json_load site_config_path ;;
             ret (Some config)
           else ret None) w with
    | (w1, Err e) =>
        (print [lit "[CHECK] Erreur: "; VStr (str_exn e)] ;; ret initial_status) w1
    | (w1, Ok None) => (w1, Ok initial_status)
    | (w1, Ok (Some config)) =>
        match read_status config initial_status with
        | (s, Some e) => (print [lit "[CHECK] Erreur: "; VStr (str_exn e)] ;; ret s) w1
        | (s, None) =>
            (print [lit "[CHECK] CORS active: "; VBool (cors_enabled s)] ;;
             print [lit "[CHECK] Origines: "; status_origins s] ;;
             print [lit "[CHECK] CSRF desactive: "; VBool (csrf_disabled s)] ;;
             print [lit "[CHECK] API active: "; VBool (api_enabled s)] ;;
             ret s) w1
        end
    end.

Definition setup_for_tailpos : M F bool :=
  print [lit (nl ++ rule 50)] ;;
  print [lit "  CONFIGURATION CORS POUR TAILPOS"] ;;
  print [lit (rule 50 ++ nl)] ;;
  let success := true in
  cors_ok <- enable_cors (VStr "*") ;;
  let success := if negb cors_ok then false else success in
  api_ok <- configure_api_settings (VInt 1000) (VInt 3600) ;;
  let success := if negb api_ok then false else success in
  print [lit (nl ++ "[FINAL] Verification de la configuration...")] ;;
  check_cors_config ;;
  (if success then
     print [lit (nl ++ "[SUCCESS] Configuration terminee!")] ;;
     print [lit (nl ++ "IMPORTANT: Redemarrez bench pour appliquer les changements:")] ;;
     print [lit "  bench restart"]
   else
     print [lit (nl ++ "[WARNING] Certaines configurations ont echoue.")]) ;;
  ret success.

(** A request, as far as the middleware looks at it. *)
Record Request : Type := { method : string; url : string }.

(** [cors_middleware(get_response)], applied to a request.
    [werkzeug_response] is what werkzeug's [Response()] builds. *)
Definition cors_middleware (werkzeug_response : Response)
  (get_response : Request -> M F Response) (request : Request) : M F Response :=
  if String.eqb (method request) "OPTIONS" then
    r <- add_cors_headers (Some werkzeug_response) ;;
    ret (match snd r with Some response => response | None => werkzeug_response end)
  else
    response <- get_response request ;;
    r <- add_cors_headers (Some response) ;;
    ret (match snd r with Some response' => response' | None => response end).

End CorsConfigRest.

(** ** More demo sites *)

Module DemoSites.

(** A site that has the System Settings doctype and document. *)
Definition settings_docs : list Doc :=
  [ [ ("doctype", VStr "DocType"); ("name", VStr "System Settings") ];
    [ ("doctype", VStr "System Settings"); ("name", VStr "System Settings");
      ("enable_api", VInt 0); ("language", VStr "fr") ] ].

Definition settings_site : World Demo.frappe :=
  Demo.site settings_docs (Content Demo.sample_config).

(** The company the script itself would create, 'My Company' with the
    abbreviation 'MC', as the framework sets it up: with its root
    warehouse and its accounts. *)
Definition default_company_docs : list Doc :=
  [ [ ("doctype", VStr "Company"); ("name", VStr DEFAULT_COMPANY);
      ("company_name", VStr DEFAULT_COMPANY); ("abbr", VStr DEFAULT_COMPANY_ABBR) ];
    [ ("doctype", VStr "Warehouse"); ("name", VStr "All Warehouses - MC");
      ("company", VStr DEFAULT_COMPANY); ("is_group", VInt 1) ];
    [ ("doctype", VStr "Account"); ("name", VStr "Cost of Goods Sold - MC");
      ("company", VStr DEFAULT_COMPANY); ("account_type", VStr "Expense Account");
      ("is_group", VInt 0) ];
    [ ("doctype", VStr "Account"); ("name", VStr "Sales - MC");
      ("company", VStr DEFAULT_COMPANY); ("account_type", VStr "Income Account");
      ("is_group", VInt 0) ];
    [ ("doctype", VStr "Account"); ("name", VStr "Cash - MC");
      ("company", VStr DEFAULT_COMPANY); ("account_type", VStr "Cash");
      ("is_group", VInt 0) ];
    [ ("doctype", VStr "Cost Center"); ("name", VStr "Main - MC");
      ("company", VStr DEFAULT_COMPANY); ("is_group", VInt 0) ] ].

Definition default_site : World Demo.frappe :=
  Demo.site default_company_docs (Content Demo.sample_config).

(** A site where the POS user is registered, with a password of their
    own choice and no API credentials. *)
Definition pos_user_docs : list Doc :=
  [ [ ("doctype", VStr "User"); ("name", VStr POS_USER_EMAIL);
      ("email", VStr POS_USER_EMAIL); ("new_password", VStr "chosen by the user");
      ("api_key", VNone); ("api_secret", VNone) ] ].

Definition pos_user_site : World Demo.frappe := Demo.site pos_user_docs Missing.

End DemoSites.

(** ** More on runs *)

Section RunMore.
Context {F : Frappe}.

(** Since [w0] only events that are [allowed] have been added. *)
Definition only_events (allowed : Event -> Prop) (w0 w : World F) : Prop :=
  exists evs, added w0 w evs /\ forall ev, In ev evs -> allowed ev.

(** The file at [p] is as it was in [w0]. *)
Definition file_kept (p : string) (w0 w : World F) : Prop :=
  files w p = files w0 p.

(** What a run may do to the framework while it leaves users alone: it
    sets no value, and what it inserts is a role. *)
Definition no_user_write (ev : Event) : Prop :=
  match ev with
  | ESetValue _ _ _ _ => False
  | EInsert d =>
      exists role_name,
        In role_name required_roles
        /\ d = [ ("doctype", VStr "Role"); ("role_name", VStr role_name) ]
  | _ => True
  end.

(** Anything but a rollback. *)
Definition no_rollback (ev : Event) : Prop :=
  match ev with
  | ERollback => False
  | _ => True
  end.

End RunMore.


(** * Properties *)

Unset Implicit Arguments.

(** ** Dictionaries *)

Module DictFacts.
Section DictFacts.
Variable V : Type.

Lemma get_set_same (k : string) (v : V) (d : list (string * V)) :
  Dict.get k (Dict.set k v d) = Some v.
Proof.
  induction d as [|[k' v'] d IH]; simpl.
  - now rewrite String.eqb_refl.
  - destruct (String.eqb k k') eqn:E; simpl.
    + now rewrite String.eqb_refl.
    + now rewrite E.
Qed.

Lemma get_set_other (k k' : string) (v : V) (d : list (string * V)) :
  k <> k' -> Dict.get k (Dict.set k' v d) = Dict.get k d.
Proof.
  intros Hne. induction d as [|[k0 v0] d IH]; simpl.
  - destruct (String.eqb_spec k k'); congruence.
  - destruct (String.eqb_spec k' k0) as [->|Hk0]; simpl.
    + destruct (String.eqb_spec k k0); congruence.
    + destruct (String.eqb_spec k k0); congruence.
Qed.

Lemma mem_set_same (k : string) (v : V) (d : list (string * V)) :
  Dict.mem k (Dict.set k v d) = true.
Proof. unfold Dict.mem. now rewrite get_set_same. Qed.

Lemma mem_set_other (k k' : string) (v : V) (d : list (string * V)) :
  k <> k' -> Dict.mem k (Dict.set k' v d) = Dict.mem k d.
Proof. intros H. unfold Dict.mem. now rewrite get_set_other. Qed.

End DictFacts.
End DictFacts.

(** ** Generated keys and secrets *)

Module SecretsFacts.
Import Secrets.

Lemma token_length (seq : string) (n : nat) (g : Rng) :
  String.length (fst (token seq n g)) = n.
Proof.
  revert g. induction n as [|n IH]; intros g; simpl; [reflexivity|].
  specialize (IH {| draws := draws g; used := S (used g) |}).
  destruct (token seq n _) as [s g2]. simpl in *. now rewrite IH.
Qed.

Lemma token_used (seq : string) (n : nat) (g : Rng) :
  used (snd (token seq n g)) = n + used g
  /\ draws (snd (token seq n g)) = draws g.
Proof.
  revert g. induction n as [|n IH]; intros g; simpl; [auto|].
  specialize (IH {| draws := draws g; used := S (used g) |}).
  destruct (token seq n _) as [s g2]. simpl in *. destruct IH. split; [lia|auto].
Qed.

Lemma get_in_range (s : string) (i : nat) :
  i < String.length s -> exists c, String.get i s = Some c.
Proof.
  revert i. induction s as [|c s IH]; intros i Hi; simpl in *; [lia|].
  destruct i; [eauto|]. apply IH. lia.
Qed.

Lemma choice_in (seq : string) (g : Rng) :
  seq <> "" ->
  exists i, i < String.length seq /\ String.get i seq = Some (fst (choice seq g)).
Proof.
  intros Hne. unfold choice. simpl.
  assert (Hlen : String.length seq <> 0) by (destruct seq; simpl; congruence).
  pose proof (Nat.mod_upper_bound (draws g (used g)) _ Hlen) as Hlt.
  destruct (get_in_range seq _ Hlt) as [c Hc].
  exists (draws g (used g) mod String.length seq). rewrite Hc. auto.
Qed.

Lemma token_chars (p : ascii -> bool) (seq : string) (n : nat) (g : Rng) :
  seq <> "" ->
  (forall i c, String.get i seq = Some c -> p c = true) ->
  all_chars p (fst (token seq n g)) = true.
Proof.
  intros Hne Hp. revert g. induction n as [|n IH]; intros g; [reflexivity|].
  cbn [token].
  destruct (choice_in seq g Hne) as (i & _ & Hi).
  destruct (choice seq g) as [c g1] eqn:Ec.
  specialize (IH g1). destruct (token seq n g1) as [s g2].
  simpl in *. rewrite IH, (Hp _ _ Hi). reflexivity.
Qed.

Lemma alphabet_ok (i : nat) (c : ascii) :
  String.get i (ascii_letters ++ digits) = Some c -> is_letter_or_digit c = true.
Proof.
  intros H.
  do 62 (destruct i as [|i]; [inversion H; reflexivity|]).
  simpl in H. discriminate.
Qed.

End SecretsFacts.

(** C2. Whatever the system generator draws, [generate_api_key] returns 20
    characters and [generate_api_secret] returns 40, and every one of them
    is an ASCII letter or a digit. *)
Theorem generated_credentials_shape (g : Secrets.Rng) :
  String.length (fst (generate_api_key g)) = 20
  /\ Secrets.all_chars Secrets.is_letter_or_digit (fst (generate_api_key g)) = true
  /\ String.length (fst (generate_api_secret g)) = 40
  /\ Secrets.all_chars Secrets.is_letter_or_digit (fst (generate_api_secret g)) = true.
Proof.
  unfold generate_api_key, generate_api_secret.
  repeat split;
    first [ apply SecretsFacts.token_length
          | apply SecretsFacts.token_chars;
            [discriminate | apply SecretsFacts.alphabet_ok] ].
Qed.

(** ** Runs *)

Section RunFacts.
Context {F : Frappe}.
Variable I : World F -> Prop.

Lemma run_ret {A} (a : A) (R : result A -> Prop) :
  R (Ok a) -> run I (ret a) R.
Proof. intros H w Hw; simpl; auto. Qed.

Lemma run_raise {A} (e : exn) (R : result A -> Prop) :
  R (Err e) -> run I (raise e) R.
Proof. intros H w Hw; simpl; auto. Qed.

Lemma run_lift {A} (r : result A) (R : result A -> Prop) :
  R r -> run I (lift r) R.
Proof. intros H w Hw; simpl; auto. Qed.

Lemma run_bind {A B} (m : M F A) (k : A -> M F B) (R1 : result A -> Prop)
  (R : result B -> Prop) :
  run I m R1 ->
  (forall a, R1 (Ok a) -> run I (k a) R) ->
  (forall e, R1 (Err e) -> R (Err e)) ->
  run I (bind m k) R.
Proof.
  intros Hm Hk He w Hw. unfold bind.
  destruct (Hm w Hw) as [H1 H2]. destruct (m w) as [w' [a|e]]; simpl in *.
  - apply (Hk a H2 w' H1).
  - auto.
Qed.

Lemma run_try_except {A} (m : M F A) (h : exn -> M F A) (R1 R : result A -> Prop) :
  run I m R1 ->
  (forall a, R1 (Ok a) -> R (Ok a)) ->
  (forall e, R1 (Err e) -> run I (h e) R) ->
  run I (try_except m h) R.
Proof.
  intros Hm Ha Hh w Hw. unfold try_except.
  destruct (Hm w Hw) as [H1 H2]. destruct (m w) as [w' [a|e]]; simpl in *.
  - auto.
  - apply (Hh e H2 w' H1).
Qed.

Lemma run_weaken {A} (m : M F A) (R R' : result A -> Prop) :
  run I m R -> (forall r, R r -> R' r) -> run I m R'.
Proof. intros Hm HR w Hw. destruct (Hm w Hw). auto. Qed.

Lemma run_any {A} (m : M F A) (R : result A -> Prop) :
  run I m R -> run I m (fun _ => True).
Proof. intros Hm. eapply run_weaken; [exact Hm | auto]. Qed.

Lemma run_for_each {A S} (l : list A) (body : S -> A -> M F S) (s : S) :
  (forall s x, run I (body s x) (fun _ => True)) ->
  run I (for_each l s body) (fun _ => True).
Proof.
  intros Hb. revert s. induction l as [|x l IH]; intros s; simpl.
  - now apply run_ret.
  - eapply run_bind; [apply Hb | intros; apply IH | auto].
Qed.

End RunFacts.

(** Rules for runs that only have to keep [I]. *)
Section KeepFacts.
Context {F : Frappe}.
Variable I : World F -> Prop.

Lemma keep_bind {A B} (m : M F A) (k : A -> M F B) :
  run I m (fun _ => True) ->
  (forall a, run I (k a) (fun _ => True)) ->
  run I (bind m k) (fun _ => True).
Proof. intros Hm Hk. eapply run_bind; eauto. Qed.

Lemma keep_try_except {A} (m : M F A) (h : exn -> M F A) :
  run I m (fun _ => True) ->
  (forall e, run I (h e) (fun _ => True)) ->
  run I (try_except m h) (fun _ => True).
Proof. intros Hm Hh. eapply run_try_except; eauto. Qed.

(** A computation that leaves the world as it is. *)
Lemma keep_same {A} (m : M F A) :
  (forall w, fst (m w) = w) -> run I m (fun _ => True).
Proof. intros H w Hw. rewrite H. auto. Qed.

End KeepFacts.


(** What makes a dump fail is no part of what a run changes. *)
Section DumpFacts.
Context {F : Frappe}.

Lemma dump_error_emit (ev : Event) (w : World F) :
  dump_error (emit ev w) = dump_error w.
Proof. reflexivity. Qed.

Lemma dump_error_set_db (s : St F) (w : World F) :
  dump_error (set_db s w) = dump_error w.
Proof. reflexivity. Qed.

Lemma dump_error_set_files (fs : string -> file) (w : World F) :
  dump_error (set_files fs w) = dump_error w.
Proof. reflexivity. Qed.

Lemma dump_error_set_rng (g : Secrets.Rng) (w : World F) :
  dump_error (set_rng g w) = dump_error w.
Proof. reflexivity. Qed.

End DumpFacts.

(** Brings [dump_error] back to the world a run started from. *)
Ltac dump_error_simp :=
  repeat match goal with
    | |- context [dump_error (emit _ _)] => rewrite !dump_error_emit
    | |- context [dump_error (set_db _ _)] => rewrite !dump_error_set_db
    | |- context [dump_error (set_files _ _)] => rewrite !dump_error_set_files
    | |- context [dump_error (set_rng _ _)] => rewrite !dump_error_set_rng
    end.

(** ** cors_config.py *)

Section CorsFacts.
Context {F : Frappe}.









End CorsFacts.

(** Setting the five headers on a header mapping. *)
Lemma set_cors_headers_get (h : list (string * value)) (k : string) (v : value) :
  In (k, v) CORS_HEADERS ->
  Dict.get k (fold_left (fun h kv => Dict.set (fst kv) (snd kv) h) CORS_HEADERS h)
  = Some v.
Proof.
  intros Hin. simpl in Hin. simpl.
  repeat destruct Hin as [Hin|Hin]; try contradiction; inversion Hin; subst;
    repeat first [ apply DictFacts.get_set_same
                 | rewrite DictFacts.get_set_other by discriminate ].
Qed.

Lemma set_cors_headers_other (h : list (string * value)) (k : string) :
  Dict.get k CORS_HEADERS = None ->
  Dict.get k (fold_left (fun h kv => Dict.set (fst kv) (snd kv) h) CORS_HEADERS h)
  = Dict.get k h.
Proof.
  intros Hk. simpl in *.
  repeat match type of Hk with
         | context [String.eqb k ?s] =>
             destruct (String.eqb_spec k s); [discriminate Hk|]
         end.
  now rewrite !DictFacts.get_set_other by assumption.
Qed.



(** *** The config file *)

(** Destructs a scrutinee that no other [match] stands in. *)
Ltac break_scrutinee :=
  match goal with
  | |- context [match ?x with _ => _ end] =>
      lazymatch x with
      | String.eqb _ _ => fail
      | context [match _ with _ => _ end] => fail
      | _ => destruct x eqn:?
      end
  end.

Ltac dict_simp :=
  repeat first
    [ progress cbn [getitem setitem contains negb and_then]
    | rewrite DictFacts.get_set_same
    | rewrite DictFacts.get_set_other by discriminate
    | rewrite DictFacts.mem_set_other by discriminate ].

Section CorsFileFacts.
Context {F : Frappe}.

Lemma cors_settings_accepts (origins config : value) :
  accepts_cors_settings config = true <->
  exists config', cors_settings origins config = Ok config'.
Proof.
  unfold accepts_cors_settings, cors_settings, setitem2.
  destruct config as [| | | | |l|d]; dict_simp;
    try (split; [discriminate | intros [c Hc]; discriminate]).
  unfold Dict.mem.
  destruct (Dict.get "api_settings" d) as [api|] eqn:Eapi; dict_simp.
  - rewrite Eapi.
    destruct api; dict_simp;
      try (split; [discriminate | intros [c Hc]; discriminate]).
    split; eauto.
  - split; eauto.
Qed.

(** What the assignments leave in a JSON object. *)
Lemma cors_settings_dict (origins : value) (d : list (string * value)) (config' : value) :
  cors_settings origins (VDict d) = Ok config' ->
  exists d' api,
    config' = VDict d'
    /\ Dict.get "allow_cors" d' = Some origins
    /\ Dict.get "ignore_csrf" d' = Some (VInt 1)
    /\ Dict.get "api_settings" d' = Some (VDict api)
    /\ Dict.get "enable_api" api = Some (VInt 1)
    /\ Dict.get "allow_api_key_authentication" api = Some (VInt 1)
    /\ (forall k, k <> "allow_cors" -> k <> "ignore_csrf" -> k <> "api_settings" ->
                  Dict.get k d' = Dict.get k d).
Proof.
  unfold cors_settings, setitem2. dict_simp. unfold Dict.mem.
  destruct (Dict.get "api_settings" d) as [api|] eqn:Eapi; dict_simp;
    [rewrite Eapi; destruct api; dict_simp; try discriminate|];
    intros H; inversion H; subst; clear H;
    (eexists _, _; split; [reflexivity|];
     repeat (split; [dict_simp; reflexivity|]);
     intros k H1 H2 H3; now rewrite !DictFacts.get_set_other by assumption).
Qed.

End CorsFileFacts.

(** Unfolds the monad and the primitives [cors_config.py] uses. *)
Ltac run_cors :=
  cbv [bind ret raise lift try_except print os_path_exists json_load json_dump
       reading calling frappe_get_site_path frappe_set_conf frappe_db_exists
       frappe_get_doc doc_save];
  cbn [fst snd db files write_refused json_error write_fails trace emit set_db
       set_files];
  dump_error_simp.

Ltac cors_cases := run_cors; repeat (break_scrutinee; run_cors).

(** Uses the equations of a case to refute or settle a claim about the
    same path and config. *)
Ltac same_config :=
  repeat match goal with
    | H : exists _, _ |- _ => destruct H
    | H : _ /\ _ |- _ => destruct H
    | H : _ = _ |- _ => discriminate H
    | H : Ok _ = Ok _ |- _ => inversion H; subst; clear H
    | H : Ok _ = Err _ |- _ => discriminate H
    | H : Err _ = Ok _ |- _ => discriminate H
    | H1 : ?x = Ok ?a, H2 : ?x = Ok ?b |- _ =>
        rewrite H1 in H2; inversion H2; subst; clear H2
    | H1 : ?x = Content ?a, H2 : ?x = Content ?b |- _ =>
        rewrite H1 in H2; inversion H2; subst; clear H2
    | H1 : ?x = _, H2 : ?x = _ |- _ => rewrite H1 in H2; discriminate H2
    | H : Content _ = Content _ |- _ => inversion H; subst; clear H
    | H : accepts_cors_settings ?c = true, E : cors_settings ?o ?c = _ |- _ =>
        apply (cors_settings_accepts o) in H
    end.


(** C7. [enable_cors] never raises.  It returns [False] when
    [site_config.json] does not exist and whenever reading, updating or
    writing the config raises; it returns [True] exactly when the file held
    a config that takes the settings, the file could be opened for writing
    and the dump went through, and then the file holds the updated
    config. *)
Theorem enable_cors_never_raises (F : Frappe) (origins : value) (w : World F) :
  exists b,
    snd (enable_cors origins w) = Ok b
    /\ (b = true <->
        exists path config config',
          get_site_path_op F "site_config.json" (db w) = Ok path
          /\ files w path = Content config
          /\ cors_settings origins config = Ok config'
          /\ write_refused w path = None
          /\ dump_error w path config' = None)
    /\ (forall path, get_site_path_op F "site_config.json" (db w) = Ok path ->
                     files w path = Missing -> b = false)
    /\ (b = true ->
        exists path config config',
          get_site_path_op F "site_config.json" (db w) = Ok path
          /\ files w path = Content config
          /\ cors_settings origins config = Ok config'
          /\ files (fst (enable_cors origins w)) path = Content config').
Proof.
  unfold enable_cors. cors_cases.
  all: eexists; split; [reflexivity|].
  all: split; [split; [try discriminate; intros _ | intros; try reflexivity; exfalso] |].
  all: try (split; [intros; try reflexivity; exfalso | try discriminate; intros _]).
  all: try solve [same_config].
  all: try solve [eexists _, _, _; repeat split; eauto].
  all: try solve [eexists _, _, _; repeat split; eauto;
                  cbn [files set_files emit set_db]; now rewrite String.eqb_refl].
Qed.








(** C5. On an existing [site_config.json], a run of
    [configure_api_settings(rate_limit, rate_limit_window)] that returns
    [True] leaves a file whose [api_settings] is exactly the four entries
    [enable_api = 1], [allow_api_key_authentication = 1], [rate_limit] and
    [rate_limit_window], whatever [api_settings] held before; and the run
    does return [True] when the file holds a JSON object, can be opened
    for writing and the dump of the new config goes through. *)
Theorem configure_api_settings_replaces (F : Frappe) (rate_limit rate_limit_window : value)
  (w : World F) (path : string) :
  get_site_path_op F "site_config.json" (db w) = Ok path ->
  files w path <> Missing ->
  (snd (configure_api_settings rate_limit rate_limit_window w) = Ok true ->
   exists d',
     files (fst (configure_api_settings rate_limit rate_limit_window w)) path
     = Content (VDict d')
     /\ Dict.get "api_settings" d'
        = Some (VDict [ ("enable_api", VInt 1);
                        ("allow_api_key_authentication", VInt 1);
                        ("rate_limit", rate_limit);
                        ("rate_limit_window", rate_limit_window) ]))
  /\ (forall d, files w path = Content (VDict d) ->
                write_refused w path = None ->
                dump_error w path
                  (VDict (Dict.set "api_settings"
                            (api_settings_of rate_limit rate_limit_window) d)) = None ->
                snd (configure_api_settings rate_limit rate_limit_window w) = Ok true).
Proof.
  intros Hpath Hfile. unfold configure_api_settings. split.
  - cors_cases; intros Hret; try discriminate Hret; try congruence;
      same_config; cbn [files set_files emit set_db];
      rewrite String.eqb_refl;
      match goal with
      | H : setitem ?v _ _ = Ok _ |- _ =>
          destruct v; cbn [setitem] in H; try discriminate H;
          inversion H; subst; clear H
      end;
      (eexists; split; [reflexivity | apply DictFacts.get_set_same]).
  - intros d Hd Hw Hdump. cors_cases; try reflexivity; exfalso; same_config;
      repeat match goal with
        | H : setitem (VDict _) _ _ = _ |- _ =>
            cbn [setitem] in H; try (inversion H; subst; clear H)
        end; same_config; congruence.
Qed.

(** C5 on the demo site, whose config already has an [api_settings]. *)
Lemma configure_api_settings_replaces_witness :
  let w := Demo.prepared_site in
  let p := "./pos.localhost/site_config.json" in
  get_site_path_op Demo.frappe "site_config.json" (db w) = Ok p
  /\ files w p <> Missing
  /\ snd (configure_api_settings (VInt 1000) (VInt 3600) w) = Ok true.
Proof.
  intros w p. split; [reflexivity|]. split; [discriminate|].
  refine (proj2 (configure_api_settings_replaces Demo.frappe (VInt 1000) (VInt 3600)
                   w p eq_refl _) _ eq_refl eq_refl _).
  - discriminate.
  - vm_compute. reflexivity.
Defined.

(** ** setup_pos.py *)

(** Unfolds the monad and the primitives [setup_pos.py] uses. *)
Ltac run_pos :=
  cbv [bind ret raise lift try_except print reading calling
       frappe_get_all frappe_db_exists frappe_db_get_value frappe_db_set_value
       frappe_get_doc frappe_new_doc doc_insert doc_save doc_submit
       frappe_db_commit frappe_db_rollback frappe_log_error
       log_info log_error log_success drawing datetime_now json_dump print_json
       negb];
  cbn [fst snd db files write_refused json_error write_fails rng now cors_headers
       trace emit set_db set_files set_rng];
  dump_error_simp.

Ltac pos_cases := run_pos; repeat (break_scrutinee; run_pos).

(** The list of events in front of [t] in [l]. *)
Ltac events_before l t :=
  lazymatch l with
  | t => constr:(@nil Event)
  | ?e :: ?l' => let p := events_before l' t in constr:(e :: p)
  end.

(** Turns [H : added w w' evs], with the trace of [w'] computed, into the
    value of [evs]. *)
Ltac added_events H :=
  unfold added in H; cbn [trace emit set_db set_rng set_files] in H;
  match type of H with
  | ?l = (?evs ++ ?t)%list =>
      let p := events_before l t in
      change l with (p ++ t)%list in H;
      apply app_inv_tail in H; subst evs
  end.

(** The events of [l] after and before its first [ESave]. *)
Ltac around_save l :=
  lazymatch l with
  | ESave _ :: ?rest => constr:((@nil Event, rest))
  | ?e :: ?l' =>
      let r := around_save l' in
      lazymatch r with (?a, ?b) => constr:((e :: a, b)) end
  end.

(** Solves [exists before after, added w w' (after ++ ESave d :: before) /\ _]
    up to its second part, once the trace of [w'] is computed. *)
Ltac added_around_save :=
  unfold added; cbn [trace emit set_db set_rng set_files];
  match goal with
  | |- exists before after, ?l = ((after ++ _ :: before) ++ ?t)%list /\ _ =>
      let p := events_before l t in
      let r := around_save p in
      lazymatch r with
      | (?a, ?b) => exists b, a; split; [reflexivity|]
      end
  end.

(** C10. [create_company] inserts only when [frappe.get_all] lists no
    Company, and then it is the 'My Company' record that it inserts.  When
    a Company is listed, it returns the name of the first one listed and
    inserts nothing. *)
Theorem create_company_only_when_none (F : Frappe) (w : World F) :
  let s := log_error_op F [lit "Verification de la company '"; VStr DEFAULT_COMPANY;
                           lit "'..."] "TailPOS Setup - Info" (db w) in
  let w' := fst (create_company w) in
  (forall first rest,
      get_all_op F "Company" 1 s = Ok (first :: rest) ->
      snd (create_company w) = Ok (doc_get "name" first)
      /\ forall evs d, added w w' evs -> ~ In (EInsert d) evs)
  /\ (forall evs d,
         added w w' evs -> In (EInsert d) evs ->
         get_all_op F "Company" 1 s = Ok [] /\ d = company_payload).
Proof.
  intros s w'. subst s w'. unfold create_company, create_company_try. split.
  - intros first rest Hall. run_pos. rewrite Hall. run_pos.
    split; [reflexivity|]. intros evs d Hadd Hin. added_events Hadd.
    simpl in Hin. intuition discriminate.
  - intros evs d Hadd Hin. revert Hadd. pos_cases; intros Hadd; added_events Hadd;
      simpl in Hin; intuition (try discriminate);
      match goal with H : EInsert _ = EInsert _ |- _ => inversion H end;
      reflexivity.
Qed.

Section MainFacts.
Context {F : Frappe}.

Lemma bind_raises {A B} (m : M F A) (k : A -> M F B) (w w' : World F) (e : exn) :
  m w = (w', Err e) -> bind m k w = (w', Err e).
Proof. intros H. unfold bind. now rewrite H. Qed.

Lemma bind_returns {A B} (m : M F A) (k : A -> M F B) (w w' : World F) (a : A) :
  m w = (w', Ok a) -> bind m k w = k a w'.
Proof. intros H. unfold bind. now rewrite H. Qed.

(** An exception in any of the steps is an exception of [main]'s [try]
    block: in steps 1 to 5, or, once these are through and step 6 has
    returned, in the rest. *)
Lemma main_steps_raises (w w1 : World F) (e : exn) :
  main_begin w = (w1, Err e)
  \/ (exists names w5 p w6,
         main_begin w = (w5, Ok names)
         /\ create_pos_profile (company_name_of names) (warehouse_name_of names)
              (price_list_name_of names) w5 = (w6, Ok p)
         /\ main_finish (company_name_of names) (pos_user_of names)
              (warehouse_name_of names) (price_list_name_of names)
              (customer_name_of names) p w6 = (w1, Err e)) ->
  main_steps w = (w1, Err e).
Proof.
  unfold main_steps. intros [H|(names & w5 & p & w6 & H1 & H2 & H3)].
  - now apply bind_raises.
  - rewrite (bind_returns _ _ _ _ _ H1), (bind_returns _ _ _ _ _ H2). exact H3.
Qed.

End MainFacts.

(** C4. When a step of [main] raises, [main] logs the error, rolls the
    database back and raises that same exception; it does not return.
    When no step raises, [main] returns what its [try] block returns and
    does not roll back. *)
Theorem main_rolls_back_and_reraises (F : Frappe) (w : World F) :
  (forall w1 e,
      main_steps (after_banner w) = (w1, Err e) ->
      exists w2,
        main w = (w2, Err e)
        /\ db w2 = rollback_op F
                     (log_error_op F [lit "Erreur fatale: "; VStr (str_exn e)]
                        "TailPOS Setup - Error" (db w1))
        /\ added w1 w2
             [ EPrint [lit (nl ++ "[ERREUR] La configuration a echoue. Voir les logs pour details.")];
               ERollback;
               ELogError [lit "Erreur fatale: "; VStr (str_exn e)]
                 "TailPOS Setup - Error";
               EPrint [lit "[ERROR] "; lit "Erreur fatale: "; VStr (str_exn e)] ])
  /\ (forall w1 v,
         main_steps (after_banner w) = (w1, Ok v) -> main w = (w1, Ok v)).
Proof.
  unfold after_banner. split.
  - intros w1 e H. eexists. unfold main. run_pos. rewrite H. run_pos.
    split; [reflexivity|]. split; reflexivity.
  - intros w1 v H. unfold main. run_pos. rewrite H. reflexivity.
Qed.


(** *** The POS profile step *)

Section ProfileFacts.
Context {F : Frappe}.





Lemma create_pos_user_reraises (w w1 : World F) (e : exn) :
  create_pos_user_try
    (logged [lit "Verification de l'utilisateur POS '"; VStr POS_USER_EMAIL;
             lit "'..."] w)
  = (w1, Err e) ->
  create_pos_user w
  = (logged_error [lit "Erreur creation utilisateur POS: "; VStr (str_exn e)] w1,
     Err e).
Proof.
  unfold logged, logged_error, create_pos_user. run_pos. intros H.
  rewrite H. reflexivity.
Qed.




End ProfileFacts.



(** *** API access *)

Module TokenFacts.
Import Secrets.

(** The character a token has at each place is the one the draw picks. *)
Lemma token_get (seq : string) (n : nat) (g : Rng) (i : nat) :
  i < n ->
  String.get i (fst (token seq n g))
  = Some (match String.get (draws g (used g + i) mod String.length seq) seq with
          | Some c => c
          | None => Ascii.zero
          end).
Proof.
  revert g i. induction n as [|n IH]; intros g i Hi; [lia|].
  cbn [token]. unfold choice.
  specialize (IH {| draws := draws g; used := S (used g) |}).
  destruct (token seq n _) as [s g2]. cbn [fst] in *.
  destruct i as [|i]; cbn [String.get].
  - now rewrite Nat.add_0_r.
  - rewrite IH by lia. cbn [draws used]. now replace (S (used g) + i) with (used g + S i) by lia.
Qed.

(** No character occurs twice in the alphabet. *)
Lemma alphabet_position (i : nat) :
  i < 62 ->
  exists c, String.get i (ascii_letters ++ digits) = Some c
            /\ index 0 (String c EmptyString) (ascii_letters ++ digits) = Some i.
Proof.
  intros Hi.
  do 62 (destruct i as [|i]; [eexists; split; reflexivity|]). lia.
Qed.

Lemma alphabet_injective (i j : nat) :
  i < 62 -> j < 62 ->
  String.get i (ascii_letters ++ digits) = String.get j (ascii_letters ++ digits) ->
  i = j.
Proof.
  intros Hi Hj H.
  destruct (alphabet_position i Hi) as (c & Hc & Hci).
  destruct (alphabet_position j Hj) as (c' & Hc' & Hcj).
  rewrite Hc, Hc' in H. inversion H; subst. congruence.
Qed.

(** Two tokens over the alphabet are the same only if every draw of the
    one picks the same character as the matching draw of the other. *)
Lemma token_differs (n : nat) (g g' : Rng) (i : nat) :
  i < n ->
  draws g (used g + i) mod 62 <> draws g' (used g' + i) mod 62 ->
  fst (token (ascii_letters ++ digits) n g) <> fst (token (ascii_letters ++ digits) n g').
Proof.
  intros Hi Hne Heq.
  pose proof (token_get (ascii_letters ++ digits) n g i Hi) as H1.
  pose proof (token_get (ascii_letters ++ digits) n g' i Hi) as H2.
  rewrite Heq, H2 in H1.
  change (String.length (ascii_letters ++ digits)) with 62 in H1.
  assert (B1 : draws g (used g + i) mod 62 < 62) by (apply Nat.mod_upper_bound; lia).
  assert (B2 : draws g' (used g' + i) mod 62 < 62) by (apply Nat.mod_upper_bound; lia).
  destruct (alphabet_position _ B1) as (c1 & E1 & _).
  destruct (alphabet_position _ B2) as (c2 & E2 & _).
  apply Hne. apply alphabet_injective; try assumption.
  rewrite E1, E2 in *. congruence.
Qed.

Lemma token_nonempty (seq : string) (n : nat) (g : Rng) :
  truthy (VStr (fst (token seq (S n) g))) = true.
Proof.
  cbn [token]. destruct (choice seq g) as [c g1]. destruct (token seq n g1). reflexivity.
Qed.

End TokenFacts.

Lemma doc_get_set_same (k : string) (v : value) (d : Doc) :
  doc_get k (doc_set k v d) = v.
Proof. unfold doc_get, doc_set. now rewrite DictFacts.get_set_same. Qed.

Lemma doc_get_set_other (k k' : string) (v : value) (d : Doc) :
  k <> k' -> doc_get k (doc_set k' v d) = doc_get k d.
Proof. intros H. unfold doc_get, doc_set. now rewrite DictFacts.get_set_other. Qed.

Section ApiAccessFacts.
Context {F : Frappe}.

(** One call of [setup_api_access] on a user the framework can load. *)
Lemma setup_api_access_run (user_email : string) (w : World F) (user : Doc) :
  load_op F "User" user_email
    (db (logged [lit "Configuration de l'acces API pour '"; VStr user_email;
                 lit "'..."] w)) = Ok user ->
  let api_key := doc_get "api_key" user in
  let fresh := generate_api_key (rng w) in
  let api_key' := if truthy api_key then api_key else VStr (fst fresh) in
  let g := if truthy api_key then rng w else snd fresh in
  let api_secret := VStr (fst (generate_api_secret g)) in
  let saved :=
    doc_set "api_secret" api_secret
      (if truthy api_key then user else doc_set "api_key" (VStr (fst fresh)) user) in
  let w' := fst (setup_api_access user_email w) in
  (exists before after,
      added w w' (after ++ ESave saved :: before)
      /\ forall d, ~ In (ESave d) (after ++ before))
  /\ doc_get "api_key" saved = api_key'
  /\ doc_get "api_secret" saved = api_secret
  /\ truthy api_key' = true
  /\ (snd (setup_api_access user_email w) = Ok (api_key', api_secret)
      \/ snd (setup_api_access user_email w) = Ok (VNone, VNone))
  /\ rng w' = snd (generate_api_secret g).
Proof.
  unfold logged. intros Hload. cbn zeta.
  unfold setup_api_access. revert Hload. run_pos. intros Hload. rewrite Hload.
  destruct (truthy (doc_get "api_key" user)) eqn:Ekey; run_pos.
  - destruct (generate_api_secret (rng w)) as [secret g'] eqn:Esecret.
    pos_cases; cbn [fst snd rng set_rng set_db emit].
    all: (split; [added_around_save; simpl; intuition discriminate|]).
    all: (split; [apply doc_get_set_other; discriminate|]).
    all: (split; [apply doc_get_set_same|]).
    all: (split; [assumption|]).
    all: (split; [auto|reflexivity]).
  - destruct (generate_api_key (rng w)) as [key g1] eqn:Efresh.
    cbn [fst snd rng set_rng set_db emit].
    destruct (generate_api_secret g1) as [secret g'] eqn:Esecret.
    pos_cases; cbn [fst snd rng set_rng set_db emit].
    all: (split; [added_around_save; simpl; intuition discriminate|]).
    all: (split; [rewrite doc_get_set_other, doc_get_set_same by discriminate;
                  reflexivity|]).
    all: (split; [apply doc_get_set_same|]).
    all: (split; [replace key with (fst (generate_api_key (rng w)))
                    by (now rewrite Efresh);
                  apply TokenFacts.token_nonempty|]).
    all: (split; [auto|reflexivity]).
Qed.

End ApiAccessFacts.

(** C8. [setup_api_access] saves the user with the API key it found, or
    with a generated one when the field is empty or [None], and with a
    secret it draws anew, and returns the two (or [(None, None)] when the
    save or the commit raises).  A second call for the same user, to which
    the framework hands back the key the first call saved, saves and
    returns the same key with another secret drawn from the generator:
    the key is unchanged, and the secret differs from the first as soon as
    one of the 40 draws picks another character. *)
Theorem api_key_kept_secret_replaced (F : Frappe) (user_email : string)
  (w : World F) (user user2 : Doc) :
  let message := [lit "Configuration de l'acces API pour '"; VStr user_email;
                  lit "'..."] in
  load_op F "User" user_email (db (logged message w)) = Ok user ->
  let api_key := doc_get "api_key" user in
  let fresh := generate_api_key (rng w) in
  let api_key1 := if truthy api_key then api_key else VStr (fst fresh) in
  let g := if truthy api_key then rng w else snd fresh in
  let secret1 := fst (generate_api_secret g) in
  let saved1 :=
    doc_set "api_secret" (VStr secret1)
      (if truthy api_key then user else doc_set "api_key" (VStr (fst fresh)) user) in
  let w1 := fst (setup_api_access user_email w) in
  load_op F "User" user_email (db (logged message w1)) = Ok user2 ->
  doc_get "api_key" user2 = api_key1 ->
  let secret2 := fst (generate_api_secret (rng w1)) in
  let saved2 := doc_set "api_secret" (VStr secret2) user2 in
  let w2 := fst (setup_api_access user_email w1) in
  (exists before after,
      added w w1 (after ++ ESave saved1 :: before)
      /\ forall d, ~ In (ESave d) (after ++ before))
  /\ doc_get "api_key" saved1 = api_key1
  /\ doc_get "api_secret" saved1 = VStr secret1
  /\ (snd (setup_api_access user_email w) = Ok (api_key1, VStr secret1)
      \/ snd (setup_api_access user_email w) = Ok (VNone, VNone))
  /\ (exists before after,
         added w1 w2 (after ++ ESave saved2 :: before)
         /\ forall d, ~ In (ESave d) (after ++ before))
  /\ doc_get "api_key" saved2 = api_key1
  /\ doc_get "api_secret" saved2 = VStr secret2
  /\ (snd (setup_api_access user_email w1) = Ok (api_key1, VStr secret2)
      \/ snd (setup_api_access user_email w1) = Ok (VNone, VNone))
  /\ (forall i, i < 40 ->
                Secrets.draws (rng w1) (Secrets.used (rng w1) + i) mod 62
                <> Secrets.draws g (Secrets.used g + i) mod 62 ->
                secret2 <> secret1).
Proof.
  cbn zeta. intros Hload Hload2 Hkey2.
  pose proof (setup_api_access_run user_email w user Hload) as H1. cbn zeta in H1.
  pose proof (setup_api_access_run user_email _ user2 Hload2) as H2. cbn zeta in H2.
  destruct H1 as (Hsave1 & Hk1 & Hs1 & Htruthy & Hret1 & Hrng1).
  rewrite Hkey2, Htruthy in H2. cbv iota in H2.
  destruct H2 as (Hsave2 & Hk2 & Hs2 & _ & Hret2 & _).
  repeat (split; [assumption|]).
  intros i Hi Hne. unfold generate_api_secret.
  now apply TokenFacts.token_differs with (i := i).
Qed.

(** Two calls for a user who has no key yet. *)
Lemma api_key_kept_secret_replaced_witness :
  let w := Demo.user_site in
  let w1 := fst (setup_api_access "cashier@example.com" w) in
  let message := [lit "Configuration de l'acces API pour '";
                  VStr "cashier@example.com"; lit "'..."] in
  let user := [ ("doctype", VStr "User"); ("name", VStr "cashier@example.com");
                ("email", VStr "cashier@example.com"); ("api_key", VNone);
                ("api_secret", VNone) ] in
  let user2 := [ ("doctype", VStr "User"); ("name", VStr "cashier@example.com");
                 ("email", VStr "cashier@example.com");
                 ("api_key", VStr "dkryFMT07elszGNU18fm");
                 ("api_secret", VStr "tAHOV29gnuBIPW3ahovCJQX4bipwDKRY5cjqxELS") ] in
  load_op Demo.frappe "User" "cashier@example.com" (db (logged message w)) = Ok user
  /\ load_op Demo.frappe "User" "cashier@example.com" (db (logged message w1))
     = Ok user2
  /\ snd (setup_api_access "cashier@example.com" w)
     = Ok (VStr "dkryFMT07elszGNU18fm", VStr "tAHOV29gnuBIPW3ahovCJQX4bipwDKRY5cjqxELS")
  /\ snd (setup_api_access "cashier@example.com" w1)
     = Ok (VStr "dkryFMT07elszGNU18fm", VStr "Z6dkryFMT07elszGNU18fmtAHOV29gnuBIPW3aho")
  /\ doc_get "api_key"
       (doc_set "api_secret" (VStr (fst (generate_api_secret (rng w1)))) user2)
     = VStr "dkryFMT07elszGNU18fm".
Proof.
  intros w w1 message user user2.
  assert (H1 : load_op Demo.frappe "User" "cashier@example.com" (db (logged message w))
               = Ok user) by (vm_compute; reflexivity).
  assert (H2 : load_op Demo.frappe "User" "cashier@example.com" (db (logged message w1))
               = Ok user2) by (vm_compute; reflexivity).
  split; [exact H1|]. split; [exact H2|].
  split; [vm_compute; reflexivity|]. split; [vm_compute; reflexivity|].
  exact (proj1 (proj2 (proj2 (proj2 (proj2 (proj2
           (api_key_kept_secret_replaced Demo.frappe "cashier@example.com" w user user2
              H1 H2 eq_refl))))))).
Defined.
(** ** Running [main] twice *)

(** C1 at the company the script itself would create.  On a site that has
    'My Company', abbreviated 'MC', the first run creates every record
    and names the warehouse as the framework does, 'Main Store - MC'.  The
    second run looks the warehouse up as 'Main Store - MY', after the
    first two letters of the company's name, does not find it, gives a
    warehouse to [insert] again and returns the name 'Main Store - MY',
    under which there is no warehouse. *)
Theorem rerun_looks_up_another_warehouse :
  let w0 := DemoSites.default_site in
  let w1 := fst (main w0) in
  let w2 := fst (main w1) in
  (exists cred,
      snd (main w0) = Ok cred
      /\ getitem cred "pos_profile"
         = Ok (VDict [ ("name", VStr "Default POS Profile");
                       ("warehouse", VStr "Main Store - MC");
                       ("price_list", VStr "Standard Selling");
                       ("company", VStr "My Company") ])
      /\ getitem cred "sample_items"
         = Ok (VList (map item_created_entry SAMPLE_ITEMS)))
  /\ exists_op Demo.frappe "Warehouse" (VStr "Main Store - MC") (db w1) = Ok true
  /\ exists_op Demo.frappe "Warehouse" (VStr "Main Store - MY") (db w1) = Ok false
  /\ added w1 w2 (new_events w1 w2)
  /\ filter (inserts_doctype "Warehouse") (new_events w1 w2)
     = [ EInsert [ ("doctype", VStr "Warehouse");
                   ("warehouse_name", VStr "Main Store");
                   ("company", VStr "My Company");
                   ("parent_warehouse", VStr "All Warehouses - MC");
                   ("is_group", VInt 0);
                   ("warehouse_type", VStr "Store") ] ]
  /\ (exists cred,
         snd (main w1) = Ok cred
         /\ getitem cred "pos_profile"
            = Ok (VDict [ ("name", VStr "Default POS Profile");
                          ("warehouse", VStr "Main Store - MY");
                          ("price_list", VStr "Standard Selling");
                          ("company", VStr "My Company") ]))
  /\ exists_op Demo.frappe "Warehouse" (VStr "Main Store - MY") (db w2) = Ok false.
Proof.
  intros w0 w1 w2.
  split; [eexists; split; [|split]; vm_compute; reflexivity|].
  split; [vm_compute; reflexivity|].
  split; [vm_compute; reflexivity|].
  split; [vm_compute; reflexivity|].
  split; [vm_compute; reflexivity|].
  split; [eexists; split; vm_compute; reflexivity|].
  vm_compute; reflexivity.
Qed.

(** * Further properties *)

(** ** cors_config.py: the three writers *)

(** [disable_csrf] never raises.  It returns [True] exactly when
    [site_config.json] holds a JSON object, can be opened for writing and
    the dump goes through, and then the file holds that object with
    [ignore_csrf] set to 1 and nothing else changed; a missing file makes
    it return [False].  When it returns [False] every file is as it was,
    but for [site_config.json] when the dump failed on it: that file is
    then cut short. *)
Theorem disable_csrf_outcome (F : Frappe) (w : World F) :
  exists b,
    snd (disable_csrf w) = Ok b
    /\ (b = true <->
        exists path d,
          get_site_path_op F "site_config.json" (db w) = Ok path
          /\ files w path = Content (VDict d)
          /\ write_refused w path = None
          /\ dump_error w path (VDict (Dict.set "ignore_csrf" (VInt 1) d)) = None)
    /\ (b = true ->
        exists path d,
          get_site_path_op F "site_config.json" (db w) = Ok path
          /\ files w path = Content (VDict d)
          /\ files (fst (disable_csrf w)) path
             = Content (VDict (Dict.set "ignore_csrf" (VInt 1) d)))
    /\ (b = false ->
        forall p,
          files (fst (disable_csrf w)) p = files w p
          \/ (files (fst (disable_csrf w)) p = cut_short
              /\ get_site_path_op F "site_config.json" (db w) = Ok p
              /\ exists config e,
                   write_refused w p = None /\ dump_error w p config = Some e)).
Proof.
  unfold disable_csrf. cors_cases.
  all: eexists; split; [reflexivity|].
  all: repeat match goal with
         | H : setitem ?v _ _ = _ |- _ =>
             destruct v; cbn [setitem] in H; try discriminate H;
             inversion H; subst; clear H
         end.
  all: split; [split; [try discriminate; intros _ | intros; try reflexivity; exfalso] |].
  all: try solve [same_config; congruence].
  all: try solve [eexists _, _; repeat split; eauto].
  all: split; [try discriminate; intros _ | try discriminate; intros _; intros p].
  all: try solve [left; reflexivity].
  all: try solve [eexists _, _; repeat split; eauto; cbn [files set_files emit set_db];
                  now rewrite String.eqb_refl].
  all: cbn [files set_files emit set_db];
    match goal with
    | |- (if String.eqb ?q ?a then _ else _) = _ \/ _ =>
        destruct (String.eqb_spec q a) as [->|];
        [ right; split; [reflexivity|]; split; [reflexivity|];
          eexists _, _; split; eassumption
        | left; reflexivity ]
    end.
Qed.

(** [configure_api_settings] never raises.  It returns [True] exactly when
    [site_config.json] is missing, or holds a JSON object, can be opened
    for writing and the dump goes through: a missing file is passed over,
    where [enable_cors] returns [False], and no file is created for it;
    whatever the System Settings block does has no part in the result.
    When it returns [False] every file is as it was, but for
    [site_config.json] when the dump failed on it: that file is then cut
    short. *)
Theorem configure_api_settings_outcome (F : Frappe) (rate_limit rate_limit_window : value)
  (w : World F) :
  exists b,
    snd (configure_api_settings rate_limit rate_limit_window w) = Ok b
    /\ (b = true <->
        exists path,
          get_site_path_op F "site_config.json" (db w) = Ok path
          /\ (files w path = Missing
              \/ exists d,
                   files w path = Content (VDict d)
                   /\ write_refused w path = None
                   /\ dump_error w path
                        (VDict (Dict.set "api_settings"
                                  (api_settings_of rate_limit rate_limit_window) d))
                      = None))
    /\ (forall path,
           get_site_path_op F "site_config.json" (db w) = Ok path ->
           files w path = Missing ->
           forall p, files (fst (configure_api_settings rate_limit rate_limit_window w)) p
                     = files w p)
    /\ (b = false ->
        forall p,
          files (fst (configure_api_settings rate_limit rate_limit_window w)) p
          = files w p
          \/ (files (fst (configure_api_settings rate_limit rate_limit_window w)) p
              = cut_short
              /\ get_site_path_op F "site_config.json" (db w) = Ok p
              /\ exists config e,
                   write_refused w p = None /\ dump_error w p config = Some e)).
Proof.
  unfold configure_api_settings. cors_cases.
  all: eexists; split; [reflexivity|].
  all: repeat match goal with
         | H : setitem ?v _ _ = _ |- _ =>
             destruct v; cbn [setitem] in H; try discriminate H;
             inversion H; subst; clear H
         end.
  all: split; [split; [try discriminate; intros _ | intros; try reflexivity; exfalso] |].
  all: try solve [same_config;
                  repeat match goal with
                    | H : _ \/ _ |- _ => destruct H
                    end; same_config; congruence].
  all: try solve [eexists; split; [reflexivity|]; eauto].
  all: split; [intros path Hp Hm p; same_config; try reflexivity
              | try discriminate; intros _ p].
  all: try solve [left; reflexivity].
  all: cbn [files set_files emit set_db];
    match goal with
    | |- (if String.eqb ?q ?a then _ else _) = _ \/ _ =>
        destruct (String.eqb_spec q a) as [->|];
        [ right; split; [reflexivity|]; split; [reflexivity|];
          eexists _, _; split; eassumption
        | left; reflexivity ]
    end.
Qed.

(** The only framework write of [configure_api_settings] is one save of
    System Settings with [enable_api] set to 1, and it is issued only when
    the doctype exists and the document has an [enable_api] field; nothing
    is ever inserted. *)
Theorem configure_api_settings_saves_system_settings (F : Frappe)
  (rate_limit rate_limit_window : value) (w : World F) (evs : list Event) :
  added w (fst (configure_api_settings rate_limit rate_limit_window w)) evs ->
  (forall d, ~ In (EInsert d) evs)
  /\ (forall d,
         In (ESave d) evs ->
         exists system_settings,
           exists_op F "DocType" (VStr "System Settings") (db w) = Ok true
           /\ load_op F "System Settings" "System Settings" (db w) = Ok system_settings
           /\ Dict.mem "enable_api" system_settings = true
           /\ d = doc_set "enable_api" (VInt 1) system_settings).
Proof.
  unfold configure_api_settings. cors_cases.
  all: intros Hadd; added_events Hadd.
  all: split; [intros d Hin; simpl in Hin; intuition discriminate|].
  all: intros d Hin; simpl in Hin.
  all: repeat (destruct Hin as [Hin|Hin]; try discriminate Hin); try contradiction.
  all: inversion Hin; subst; eexists; repeat split; eauto.
Qed.

(** A site with the System Settings document: the one save is there. *)
Lemma configure_api_settings_saves_system_settings_witness :
  let w := DemoSites.settings_site in
  let w' := fst (configure_api_settings (VInt 100) (VInt 60) w) in
  added w w' (trace w')
  /\ (exists d, In (ESave d) (trace w'))
  /\ (forall d, ~ In (EInsert d) (trace w')).
Proof.
  intros w w'.
  assert (Hadd : added w w' (trace w')) by (vm_compute; reflexivity).
  split; [exact Hadd|]. split.
  - vm_compute. eexists. repeat first [left; reflexivity | right].
  - exact (proj1 (configure_api_settings_saves_system_settings Demo.frappe
                    (VInt 100) (VInt 60) w (trace w') Hadd)).
Defined.

(** ** cors_config.py: applying the settings again, and reading them back *)

Module DictMore.
Section DictMore.
Variable V : Type.

(** Assigning a key the value it has changes nothing. *)
Lemma set_same (k : string) (v : V) (d : list (string * V)) :
  Dict.get k d = Some v -> Dict.set k v d = d.
Proof.
  induction d as [|[k' v'] d IH]; simpl; [discriminate|].
  destruct (String.eqb_spec k k') as [->|Hne].
  - intros H. now inversion H.
  - intros H. now rewrite (IH H).
Qed.

Lemma set_set (k : string) (v v' : V) (d : list (string * V)) :
  Dict.set k v (Dict.set k v' d) = Dict.set k v d.
Proof.
  induction d as [|[k0 v0] d IH]; simpl.
  - now rewrite String.eqb_refl.
  - destruct (String.eqb_spec k k0) as [->|Hne]; simpl.
    + now rewrite String.eqb_refl.
    + destruct (String.eqb_spec k k0); [contradiction|]. now rewrite IH.
Qed.

End DictMore.
End DictMore.

Section CorsAgain.
Context {F : Frappe}.

(** What a successful [enable_cors] has done. *)
Lemma enable_cors_true (origins : value) (w : World F) :
  snd (enable_cors origins w) = Ok true ->
  exists path config config',
    get_site_path_op F "site_config.json" (db w) = Ok path
    /\ files w path = Content config
    /\ cors_settings origins config = Ok config'
    /\ write_refused w path = None
    /\ (forall p, files (fst (enable_cors origins w)) p
                  = if String.eqb p path then Content config' else files w p)
    /\ (forall p, write_refused (fst (enable_cors origins w)) p = write_refused w p).
Proof.
  unfold enable_cors. cors_cases; intros H; try discriminate H.
  all: try solve [exfalso; same_config].
  all: same_config; eexists _, _, _;
    repeat (split; [first [eassumption | reflexivity]|]); intros p; reflexivity.
Qed.

(** The dump of a successful [enable_cors] went through. *)
Lemma enable_cors_true_dump (origins : value) (w : World F) (path : string)
  (config config' : value) :
  snd (enable_cors origins w) = Ok true ->
  get_site_path_op F "site_config.json" (db w) = Ok path ->
  files w path = Content config ->
  cors_settings origins config = Ok config' ->
  dump_error w path config' = None.
Proof.
  unfold enable_cors. cors_cases; intros H Hp Hf Hs; try discriminate H.
  all: try solve [exfalso; same_config].
  all: same_config; congruence.
Qed.

(** A call leaves what makes a dump fail as it is. *)
Lemma enable_cors_dump_error (origins : value) (w : World F) (p : string) (v : value) :
  dump_error (fst (enable_cors origins w)) p v = dump_error w p v.
Proof. unfold enable_cors. cors_cases; reflexivity. Qed.

(** What a successful [configure_api_settings] on an existing config has
    done. *)
Lemma configure_api_settings_true (rate_limit rate_limit_window : value)
  (w : World F) (path : string) (config : value) :
  get_site_path_op F "site_config.json" (db w) = Ok path ->
  files w path = Content config ->
  snd (configure_api_settings rate_limit rate_limit_window w) = Ok true ->
  exists d,
    config = VDict d
    /\ forall p, files (fst (configure_api_settings rate_limit rate_limit_window w)) p
                 = if String.eqb p path
                   then Content (VDict (Dict.set "api_settings"
                                          (api_settings_of rate_limit rate_limit_window) d))
                   else files w p.
Proof.
  intros Hpath Hfile. unfold configure_api_settings.
  cors_cases; intros H; try discriminate H.
  all: try solve [exfalso; same_config].
  all: same_config;
    match goal with
    | H : setitem ?v _ _ = Ok _ |- _ =>
        destruct v; cbn [setitem] in H; try discriminate H;
        inversion H; subst; clear H
    end;
    eexists; split; [reflexivity|]; intros p; reflexivity.
Qed.

(** The assignments of [enable_cors] change nothing when made again. *)
Lemma cors_settings_idempotent (origins config config' : value) :
  cors_settings origins config = Ok config' ->
  cors_settings origins config' = Ok config'.
Proof.
  intros H.
  assert (Hacc : accepts_cors_settings config = true)
    by (apply (cors_settings_accepts origins); eauto).
  destruct config as [| | | | | |d]; try discriminate Hacc.
  destruct (cors_settings_dict origins d config' H)
    as (d' & api & -> & Hallow & Hcsrf & Hapi & Hen & Hkey & _).
  pose proof (DictMore.set_same _ _ _ _ Hallow) as E1.
  pose proof (DictMore.set_same _ _ _ _ Hcsrf) as E2.
  pose proof (DictMore.set_same _ _ _ _ Hapi) as E3.
  pose proof (DictMore.set_same _ _ _ _ Hen) as E4.
  pose proof (DictMore.set_same _ _ _ _ Hkey) as E5.
  unfold cors_settings, setitem2.
  cbn [setitem and_then contains]. rewrite E1, E2.
  unfold Dict.mem. rewrite Hapi. cbn [negb and_then getitem]. rewrite Hapi.
  cbn [setitem and_then]. rewrite E4, E3.
  cbn [getitem]. rewrite Hapi. cbn [setitem]. now rewrite E5, E3.
Qed.

End CorsAgain.

(** [enable_cors] is idempotent: called again with the same origins after
    a call that returned [True], on a site whose config path is still the
    same, it returns [True] again and leaves every file as the first call
    left it. *)
Theorem enable_cors_idempotent (F : Frappe) (origins : value) (w : World F) :
  let w1 := fst (enable_cors origins w) in
  snd (enable_cors origins w) = Ok true ->
  get_site_path_op F "site_config.json" (db w1)
  = get_site_path_op F "site_config.json" (db w) ->
  snd (enable_cors origins w1) = Ok true
  /\ forall p, files (fst (enable_cors origins w1)) p = files w1 p.
Proof.
  intros w1 Hok Hpath.
  destruct (enable_cors_true origins w Hok)
    as (path & config & config' & Hp & Hf & Hs & Hw & Hfiles & Hrefused).
  fold w1 in Hfiles, Hrefused.
  assert (Hf1 : files w1 path = Content config')
    by (rewrite Hfiles; now rewrite String.eqb_refl).
  assert (Hw1 : write_refused w1 path = None) by now rewrite Hrefused.
  assert (Hd1 : dump_error w1 path config' = None).
  { unfold w1. rewrite enable_cors_dump_error.
    exact (enable_cors_true_dump origins w path config config' Hok Hp Hf Hs). }
  rewrite Hp in Hpath.
  pose proof (cors_settings_idempotent _ _ _ Hs) as Hs1.
  clearbody w1. clear Hfiles Hrefused Hok Hf Hw Hp.
  unfold enable_cors.
  repeat first [ rewrite Hpath | rewrite Hf1 | rewrite Hs1 | rewrite Hw1
               | rewrite Hd1 | progress run_cors ].
  repeat (break_scrutinee; run_cors).
  all: split; [reflexivity|].
  all: intros p; destruct (String.eqb_spec p path); subst; auto.
Qed.

(** What the assignments of [enable_cors] leave in [api_settings]. *)
Lemma cors_settings_api (origins : value) (d : list (string * value)) (config' : value) :
  cors_settings origins (VDict d) = Ok config' ->
  exists d' api',
    config' = VDict d'
    /\ Dict.get "api_settings" d' = Some (VDict api')
    /\ match Dict.get "api_settings" d with
       | Some (VDict api) =>
           forall k, k <> "enable_api" -> k <> "allow_api_key_authentication" ->
                     Dict.get k api' = Dict.get k api
       | _ => api' = [("enable_api", VInt 1); ("allow_api_key_authentication", VInt 1)]
       end.
Proof.
  unfold cors_settings, setitem2. dict_simp. unfold Dict.mem.
  destruct (Dict.get "api_settings" d) as [api|] eqn:Eapi; dict_simp;
    [rewrite Eapi; destruct api; dict_simp; try discriminate|];
    intros H; inversion H; subst; clear H;
    (eexists _, _; split; [reflexivity|]; split; [dict_simp; reflexivity|]).
  - intros k H1 H2. now rewrite !DictFacts.get_set_other by assumption.
  - reflexivity.
Qed.

(** [enable_cors] adds its two entries to an [api_settings] object that is
    there and keeps every other entry of it, a rate limit for one; where
    [configure_api_settings] replaces the object.  Without an
    [api_settings] the two entries are all it holds afterwards. *)
Theorem enable_cors_keeps_api_settings_entries (F : Frappe) (origins : value)
  (w : World F) (path : string) (d : list (string * value)) :
  get_site_path_op F "site_config.json" (db w) = Ok path ->
  files w path = Content (VDict d) ->
  snd (enable_cors origins w) = Ok true ->
  exists d' api',
    files (fst (enable_cors origins w)) path = Content (VDict d')
    /\ Dict.get "api_settings" d' = Some (VDict api')
    /\ match Dict.get "api_settings" d with
       | Some (VDict api) =>
           forall k, k <> "enable_api" -> k <> "allow_api_key_authentication" ->
                     Dict.get k api' = Dict.get k api
       | _ => api' = [("enable_api", VInt 1); ("allow_api_key_authentication", VInt 1)]
       end.
Proof.
  intros Hpath Hfile Hok.
  destruct (enable_cors_true origins w Hok)
    as (path' & config & config' & Hp & Hf & Hs & _ & Hfiles & _).
  rewrite Hpath in Hp. inversion Hp; subst path'. rewrite Hfile in Hf.
  inversion Hf; subst config.
  destruct (cors_settings_api origins d config' Hs) as (d' & api' & -> & Hapi & Hrest).
  exists d', api'. split; [|split; assumption].
  rewrite Hfiles. now rewrite String.eqb_refl.
Qed.

(** The config of the demo site has a rate limit, which stays. *)
Lemma enable_cors_keeps_api_settings_entries_witness :
  let w := Demo.prepared_site in
  let path := "./pos.localhost/site_config.json" in
  exists d' api',
    files (fst (enable_cors (VStr "*") w)) path = Content (VDict d')
    /\ Dict.get "api_settings" d' = Some (VDict api')
    /\ Dict.get "rate_limit" api' = Some (VInt 10).
Proof.
  intros w path.
  destruct (enable_cors_keeps_api_settings_entries Demo.frappe (VStr "*") w path
              [ ("db_name", VStr "_5e5899d8398b5f7b");
                ("db_password", VStr "s3cr3t");
                ("api_settings", VDict [ ("rate_limit", VInt 10) ]);
                ("developer_mode", VInt 1) ]
              eq_refl eq_refl eq_refl) as (d' & api' & H1 & H2 & H3).
  exists d', api'. split; [exact H1|]. split; [exact H2|].
  cbn in H3. rewrite H3 by discriminate. reflexivity.
Defined.

(** Calling [enable_cors] twice on the demo site. *)
Lemma enable_cors_idempotent_witness :
  let w := Demo.prepared_site in
  let w1 := fst (enable_cors (VStr "*") w) in
  snd (enable_cors (VStr "*") w) = Ok true
  /\ snd (enable_cors (VStr "*") w1) = Ok true.
Proof.
  intros w w1. split; [reflexivity|].
  exact (proj1 (enable_cors_idempotent Demo.frappe (VStr "*") w eq_refl eq_refl)).
Defined.

(** ** cors_config.py: [check_cors_config] and [setup_for_tailpos] *)

Section CheckFacts.
Context {F : Frappe}.

Lemma enable_cors_returns (origins : value) (w : World F) :
  exists b, snd (enable_cors origins w) = Ok b.
Proof. unfold enable_cors. cors_cases; eexists; reflexivity. Qed.

Lemma configure_api_settings_returns (rate_limit rate_limit_window : value)
  (w : World F) :
  exists b, snd (configure_api_settings rate_limit rate_limit_window w) = Ok b.
Proof. unfold configure_api_settings. cors_cases; eexists; reflexivity. Qed.

(** [check_cors_config] returns, and only prints. *)
Lemma check_cors_config_pure (w : World F) :
  exists s,
    snd (check_cors_config w) = Ok s
    /\ (forall p, files (fst (check_cors_config w)) p = files w p)
    /\ db (fst (check_cors_config w)) = db w.
Proof.
  unfold check_cors_config. cors_cases; eexists; repeat split.
Qed.

(** The status read from a config that has the settings of [enable_cors]. *)
Lemma read_status_enabled (origins : value) (d api : list (string * value)) :
  Dict.get "allow_cors" d = Some origins ->
  Dict.get "ignore_csrf" d = Some (VInt 1) ->
  Dict.get "api_settings" d = Some (VDict api) ->
  Dict.get "enable_api" api = Some (VInt 1) ->
  read_status (VDict d) initial_status
  = ({| cors_enabled := true; csrf_disabled := true; api_enabled := true;
        status_origins := origins |}, None).
Proof.
  intros H1 H2 H3 H4. unfold read_status, py_get, contains, Dict.mem.
  now rewrite H1, H2, H3, H4.
Qed.

End CheckFacts.

(** [check_cors_config] never raises and changes neither a file nor the
    database.  When the site path cannot be had, or [site_config.json] is
    missing or cannot be read, it returns the status it started from:
    nothing enabled, no origins. *)
Theorem check_cors_config_reads_only (F : Frappe) (w : World F) :
  exists s,
    snd (check_cors_config w) = Ok s
    /\ (forall p, files (fst (check_cors_config w)) p = files w p)
    /\ db (fst (check_cors_config w)) = db w
    /\ ((forall path, get_site_path_op F "site_config.json" (db w) <> Ok path)
        \/ (exists path,
               get_site_path_op F "site_config.json" (db w) = Ok path
               /\ (files w path = Missing \/ exists e, files w path = Unreadable e)) ->
        s = initial_status).
Proof.
  unfold check_cors_config. cors_cases; eexists; repeat split.
  all: intros [H|(path & Hp & [Hm|[e' He]])]; try reflexivity; exfalso.
  all: try solve [eapply H; eauto]; same_config.
Qed.

(** After an [enable_cors(origins)] that returned [True], on a site whose
    config path is still the same, [check_cors_config] reports CORS
    enabled for those origins, CSRF disabled and the API enabled. *)
Theorem check_cors_config_after_enable_cors (F : Frappe) (origins : value)
  (w : World F) :
  let w1 := fst (enable_cors origins w) in
  snd (enable_cors origins w) = Ok true ->
  get_site_path_op F "site_config.json" (db w1)
  = get_site_path_op F "site_config.json" (db w) ->
  snd (check_cors_config w1)
  = Ok {| cors_enabled := true; csrf_disabled := true; api_enabled := true;
          status_origins := origins |}.
Proof.
  intros w1 Hok Hpath.
  destruct (enable_cors_true origins w Hok)
    as (path & config & config' & Hp & Hf & Hs & _ & Hfiles & _).
  fold w1 in Hfiles.
  assert (Hacc : accepts_cors_settings config = true)
    by (apply (cors_settings_accepts origins); eauto).
  destruct config as [| | | | | |d]; try discriminate Hacc.
  destruct (cors_settings_dict origins d config' Hs)
    as (d' & api & -> & Hallow & Hcsrf & Hapi & Hen & _ & _).
  assert (Hf1 : files w1 path = Content (VDict d'))
    by (rewrite Hfiles; now rewrite String.eqb_refl).
  rewrite Hp in Hpath. clearbody w1.
  unfold check_cors_config.
  repeat first [ rewrite Hpath | rewrite Hf1
               | rewrite (read_status_enabled origins d' api Hallow Hcsrf Hapi Hen)
               | progress run_cors ].
  reflexivity.
Qed.

(** Enabling and checking on the demo site. *)
Lemma check_cors_config_after_enable_cors_witness :
  let w := Demo.prepared_site in
  snd (enable_cors (VStr "*") w) = Ok true
  /\ snd (check_cors_config (fst (enable_cors (VStr "*") w)))
     = Ok {| cors_enabled := true; csrf_disabled := true; api_enabled := true;
             status_origins := VStr "*" |}.
Proof.
  intros w. split; [reflexivity|].
  exact (check_cors_config_after_enable_cors Demo.frappe (VStr "*") w eq_refl eq_refl).
Defined.

Section SetupFacts.
Context {F : Frappe}.

Lemma run_of_result {A} (m : M F A) (w : World F) (r : result A) :
  snd (m w) = r -> m w = (fst (m w), r).
Proof. intros <-. apply surjective_pairing. Qed.

(** [setup_for_tailpos], from the results of its two steps. *)
Lemma setup_for_tailpos_run (w : World F) (b1 b2 : bool) :
  let wb := emit (EPrint [lit (rule 50 ++ nl)])
              (emit (EPrint [lit "  CONFIGURATION CORS POUR TAILPOS"])
                 (emit (EPrint [lit (nl ++ rule 50)]) w)) in
  let w1 := fst (enable_cors (VStr "*") wb) in
  let w2 := fst (configure_api_settings (VInt 1000) (VInt 3600) w1) in
  snd (enable_cors (VStr "*") wb) = Ok b1 ->
  snd (configure_api_settings (VInt 1000) (VInt 3600) w1) = Ok b2 ->
  snd (setup_for_tailpos w) = Ok (b1 && b2)
  /\ forall p, files (fst (setup_for_tailpos w)) p = files w2 p.
Proof.
  intros wb w1 w2 H1 H2.
  apply run_of_result in H1. apply run_of_result in H2. fold w1 in H1. fold w2 in H2.
  destruct (check_cors_config_pure
              (emit (EPrint [lit (nl ++ "[FINAL] Verification de la configuration...")])
                 w2)) as (s & Hs & Hfiles & _).
  apply run_of_result in Hs.
  unfold setup_for_tailpos.
  do 3 (erewrite bind_returns by reflexivity). fold wb. cbv zeta.
  rewrite (bind_returns _ _ _ _ _ H1), (bind_returns _ _ _ _ _ H2).
  erewrite bind_returns by reflexivity.
  rewrite (bind_returns _ _ _ _ _ Hs).
  destruct b1, b2; cbn [negb andb]; cbv [bind print ret]; cbn [fst snd files emit];
    (split; [reflexivity | exact Hfiles]).
Qed.

End SetupFacts.

(** [setup_for_tailpos] never raises, and returns [True] exactly when both
    [enable_cors("*")] and [configure_api_settings(1000)] have returned
    [True]; the check in between has no part in the result. *)
Theorem setup_for_tailpos_outcome (F : Frappe) (w : World F) :
  let wb := emit (EPrint [lit (rule 50 ++ nl)])
              (emit (EPrint [lit "  CONFIGURATION CORS POUR TAILPOS"])
                 (emit (EPrint [lit (nl ++ rule 50)]) w)) in
  let w1 := fst (enable_cors (VStr "*") wb) in
  exists b1 b2,
    snd (enable_cors (VStr "*") wb) = Ok b1
    /\ snd (configure_api_settings (VInt 1000) (VInt 3600) w1) = Ok b2
    /\ snd (setup_for_tailpos w) = Ok (b1 && b2).
Proof.
  intros wb w1.
  destruct (enable_cors_returns (VStr "*") wb) as [b1 H1].
  destruct (configure_api_settings_returns (VInt 1000) (VInt 3600) w1) as [b2 H2].
  exists b1, b2. split; [exact H1|]. split; [exact H2|].
  exact (proj1 (setup_for_tailpos_run w b1 b2 H1 H2)).
Qed.

(** After a [setup_for_tailpos] that returned [True], on a site whose
    config path stays the same, [site_config.json] holds a JSON object with
    [allow_cors = "*"], [ignore_csrf = 1] and [api_settings] exactly the
    four entries with a rate limit of 1000 per 3600 seconds, and every
    other key as it was. *)
Theorem setup_for_tailpos_config (F : Frappe) (w : World F) (path : string) :
  let wb := emit (EPrint [lit (rule 50 ++ nl)])
              (emit (EPrint [lit "  CONFIGURATION CORS POUR TAILPOS"])
                 (emit (EPrint [lit (nl ++ rule 50)]) w)) in
  let w1 := fst (enable_cors (VStr "*") wb) in
  snd (setup_for_tailpos w) = Ok true ->
  get_site_path_op F "site_config.json" (db w) = Ok path ->
  get_site_path_op F "site_config.json" (db w1) = Ok path ->
  exists d d',
    files w path = Content (VDict d)
    /\ files (fst (setup_for_tailpos w)) path = Content (VDict d')
    /\ Dict.get "allow_cors" d' = Some (VStr "*")
    /\ Dict.get "ignore_csrf" d' = Some (VInt 1)
    /\ Dict.get "api_settings" d'
       = Some (VDict [ ("enable_api", VInt 1);
                       ("allow_api_key_authentication", VInt 1);
                       ("rate_limit", VInt 1000);
                       ("rate_limit_window", VInt 3600) ])
    /\ same_elsewhere d d'.
Proof.
  intros wb w1 Hok Hpath Hpath1.
  destruct (enable_cors_returns (VStr "*") wb) as [b1 H1].
  destruct (configure_api_settings_returns (VInt 1000) (VInt 3600) w1) as [b2 H2].
  destruct (setup_for_tailpos_run w b1 b2 H1 H2) as [Hret Hfiles].
  rewrite Hret in Hok. inversion Hok as [Hb].
  apply andb_prop in Hb. destruct Hb as [-> ->].
  destruct (enable_cors_true (VStr "*") wb H1)
    as (path' & config & config' & Hp & Hf & Hs & _ & Hfiles1 & _).
  change (db wb) with (db w) in Hp. rewrite Hpath in Hp. inversion Hp; subst path'.
  change (files wb path) with (files w path) in Hf.
  assert (Hacc : accepts_cors_settings config = true)
    by (apply (cors_settings_accepts (VStr "*")); eauto).
  destruct config as [| | | | | |d]; try discriminate Hacc.
  destruct (cors_settings_dict (VStr "*") d config' Hs)
    as (d1 & api & -> & Hallow & Hcsrf & _ & _ & _ & Hother).
  fold w1 in Hfiles1.
  assert (Hf1 : files w1 path = Content (VDict d1))
    by (rewrite Hfiles1; now rewrite String.eqb_refl).
  destruct (configure_api_settings_true (VInt 1000) (VInt 3600) w1 path (VDict d1)
              Hpath1 Hf1 H2) as (d1' & Hd1 & Hfiles2).
  inversion Hd1; subst d1'.
  exists d, (Dict.set "api_settings" (api_settings_of (VInt 1000) (VInt 3600)) d1).
  split; [exact Hf|]. split.
  - rewrite Hfiles, Hfiles2. now rewrite String.eqb_refl.
  - repeat split.
    + now rewrite DictFacts.get_set_other by discriminate.
    + now rewrite DictFacts.get_set_other by discriminate.
    + now rewrite DictFacts.get_set_same.
    + intros k Hk. rewrite DictFacts.get_set_other.
      * apply Hother; intros ->; apply Hk; simpl; auto.
      * intros ->. apply Hk. simpl. auto.
Qed.

(** The whole configuration on the demo site. *)
Lemma setup_for_tailpos_config_witness :
  let w := Demo.prepared_site in
  let path := "./pos.localhost/site_config.json" in
  snd (setup_for_tailpos w) = Ok true
  /\ exists d d',
       files w path = Content (VDict d)
       /\ files (fst (setup_for_tailpos w)) path = Content (VDict d')
       /\ Dict.get "allow_cors" d' = Some (VStr "*").
Proof.
  intros w path. split; [reflexivity|].
  destruct (setup_for_tailpos_config Demo.frappe w path eq_refl eq_refl eq_refl)
    as (d & d' & H1 & H2 & H3 & _).
  exists d, d'. repeat split; assumption.
Defined.

(** ** cors_config.py: the response hooks *)

Section HookFacts.
Context {F : Frappe}.

(** The response after [add_cors_headers]. *)
Lemma add_cors_headers_response (w : World F) (r : Response) :
  cors_headers w = CORS_HEADERS ->
  exists r',
    add_cors_headers (Some r) w = (w, Ok (ModuleGlobal, Some r'))
    /\ headers r' = fold_left (fun h kv => Dict.set (fst kv) (snd kv) h)
                      CORS_HEADERS (headers r)
    /\ status r' = status r /\ body r' = body r.
Proof.
  intros Hw. eexists. split; [reflexivity|]. cbn [headers status body].
  rewrite Hw. repeat split.
Qed.

(** Setting the five headers where they are set changes nothing. *)
Lemma set_cors_headers_twice (h : list (string * value)) :
  let set_all := fold_left (fun h kv => Dict.set (fst kv) (snd kv) h) CORS_HEADERS in
  set_all (set_all h) = set_all h.
Proof.
  intros set_all. set (h1 := set_all h).
  assert (Hget : forall k v, In (k, v) CORS_HEADERS -> Dict.get k h1 = Some v)
    by (intros k v; apply set_cors_headers_get).
  unfold set_all at 1. cbn [fold_left CORS_HEADERS fst snd].
  repeat rewrite DictMore.set_same; try reflexivity;
    apply Hget; simpl; auto 10.
Qed.

End HookFacts.

(** [add_cors_headers] is idempotent on a response: the hook
    [after_request] and the middleware may both run on it, and the second
    leaves the response as the first made it. *)
Theorem add_cors_headers_idempotent (F : Frappe) (w : World F) (r r1 : Response) :
  cors_headers w = CORS_HEADERS ->
  snd (add_cors_headers (Some r) w) = Ok (ModuleGlobal, Some r1) ->
  add_cors_headers (Some r1) w = (w, Ok (ModuleGlobal, Some r1))
  /\ after_request r1 w = (w, Ok (Some r1)).
Proof.
  intros Hw H1.
  destruct (add_cors_headers_response w r Hw) as (r' & E & Hh & Hs & Hb).
  rewrite E in H1. inversion H1; subst r'. clear H1.
  assert (E1 : add_cors_headers (Some r1) w = (w, Ok (ModuleGlobal, Some r1))).
  { destruct (add_cors_headers_response w r1 Hw) as (r2 & E2 & Hh2 & Hs2 & Hb2).
    rewrite E2. repeat f_equal.
    destruct r1 as [s1 h1 b1], r2 as [s2 h2 b2]. cbn [headers status body] in *.
    subst s2 b2. f_equal. rewrite Hh2, Hh. apply set_cors_headers_twice. }
  split; [exact E1|]. unfold after_request, bind, ret. now rewrite E1.
Qed.

(** A response of the demo site, through the hook twice. *)
Lemma add_cors_headers_idempotent_witness :
  let w := Demo.prepared_site in
  let r := {| status := 200; headers := [("Content-Type", VStr "application/json")];
              body := "{}" |} in
  exists r1,
    snd (add_cors_headers (Some r) w) = Ok (ModuleGlobal, Some r1)
    /\ after_request r1 w = (w, Ok (Some r1)).
Proof.
  intros w r. eexists. split; [reflexivity|].
  exact (proj2 (add_cors_headers_idempotent Demo.frappe w r _ eq_refl eq_refl)).
Defined.

(** The middleware answers a preflight request itself: for [OPTIONS] the
    wrapped handler is not run, the world is as it was, and the answer is
    werkzeug's empty response with the five headers.  Any other request
    goes to the handler; what the handler returns comes back with the five
    headers set and its other headers, status and body as they were, and
    what the handler raises is raised. *)
Theorem cors_middleware_preflight (F : Frappe) (werkzeug_response : Response)
  (get_response : Request -> M F Response) (request : Request) (w : World F) :
  cors_headers w = CORS_HEADERS ->
  (method request = "OPTIONS" ->
   exists r',
     cors_middleware werkzeug_response get_response request w = (w, Ok r')
     /\ (forall k v, In (k, v) CORS_HEADERS -> Dict.get k (headers r') = Some v)
     /\ status r' = status werkzeug_response
     /\ body r' = body werkzeug_response)
  /\ (method request <> "OPTIONS" ->
      (forall w1 e,
          get_response request w = (w1, Err e) ->
          cors_middleware werkzeug_response get_response request w = (w1, Err e))
      /\ (forall w1 response,
             get_response request w = (w1, Ok response) ->
             cors_headers w1 = CORS_HEADERS ->
             exists r',
               cors_middleware werkzeug_response get_response request w = (w1, Ok r')
               /\ (forall k v, In (k, v) CORS_HEADERS ->
                               Dict.get k (headers r') = Some v)
               /\ (forall k, Dict.get k CORS_HEADERS = None ->
                             Dict.get k (headers r') = Dict.get k (headers response))
               /\ status r' = status response
               /\ body r' = body response)).
Proof.
  intros Hw. unfold cors_middleware. split.
  - intros ->. cbn [String.eqb Ascii.eqb Bool.eqb].
    destruct (add_cors_headers_response w werkzeug_response Hw)
      as (r' & E & Hh & Hs & Hb).
    exists r'. unfold bind, ret. rewrite E. cbn [snd].
    split; [reflexivity|]. split; [|split; assumption].
    intros k v Hin. rewrite Hh. now apply set_cors_headers_get.
  - intros Hm. destruct (String.eqb_spec (method request) "OPTIONS"); [contradiction|].
    split.
    + intros w1 e H. unfold bind. now rewrite H.
    + intros w1 response H Hw1.
      destruct (add_cors_headers_response w1 response Hw1) as (r' & E & Hh & Hs & Hb).
      exists r'. unfold bind, ret. rewrite H, E. cbn [snd].
      split; [reflexivity|]. rewrite Hh.
      split; [intros k v; apply set_cors_headers_get|].
      split; [intros k; apply set_cors_headers_other|]. split; assumption.
Qed.

(** A preflight request on the demo site, with a handler that would raise. *)
Lemma cors_middleware_preflight_witness :
  let w := Demo.prepared_site in
  let empty := {| status := 200; headers := []; body := "" |} in
  let handler := fun _ : Request =>
                   raise (F := Demo.frappe) (OtherError "RuntimeError" "handler") in
  exists r',
    cors_middleware empty handler {| method := "OPTIONS"; url := "/api/resource/Item" |} w
    = (w, Ok r')
    /\ status r' = 200%Z.
Proof.
  intros w empty handler.
  destruct (proj1 (cors_middleware_preflight Demo.frappe empty handler
                     {| method := "OPTIONS"; url := "/api/resource/Item" |} w eq_refl)
              eq_refl) as (r' & H1 & _ & H2 & _).
  exists r'. split; assumption.
Defined.

(** ** setup_pos.py: keys and API access *)

(** The generators use the draws in order: [generate_api_key] takes 20 of
    them and [generate_api_secret] 40, each character is the one of the 62
    that its draw picks, and the draws to come are untouched. *)
Theorem generated_credentials_follow_draws (g : Secrets.Rng) :
  let alphabet := Secrets.ascii_letters ++ Secrets.digits in
  let pick i := match String.get (Secrets.draws g (Secrets.used g + i) mod 62) alphabet with
                | Some c => c
                | None => Ascii.zero
                end in
  (forall i, i < 20 -> String.get i (fst (generate_api_key g)) = Some (pick i))
  /\ Secrets.used (snd (generate_api_key g)) = 20 + Secrets.used g
  /\ Secrets.draws (snd (generate_api_key g)) = Secrets.draws g
  /\ (forall i, i < 40 -> String.get i (fst (generate_api_secret g)) = Some (pick i))
  /\ Secrets.used (snd (generate_api_secret g)) = 40 + Secrets.used g
  /\ Secrets.draws (snd (generate_api_secret g)) = Secrets.draws g.
Proof.
  intros alphabet pick. unfold generate_api_key, generate_api_secret.
  destruct (SecretsFacts.token_used alphabet 20 g) as [U1 D1].
  destruct (SecretsFacts.token_used alphabet 40 g) as [U2 D2].
  repeat split; try assumption.
  - intros i Hi. apply (TokenFacts.token_get alphabet 20 g i Hi).
  - intros i Hi. apply (TokenFacts.token_get alphabet 40 g i Hi).
Qed.

(** [setup_api_access] never raises: it returns a pair.  When the user
    cannot be loaded the pair is [(None, None)], nothing has been drawn
    from the generator and nothing has been saved or committed. *)
Theorem setup_api_access_soft_failure (F : Frappe) (user_email : string) (w : World F) :
  let w' := fst (setup_api_access user_email w) in
  (exists api_key api_secret, snd (setup_api_access user_email w) = Ok (api_key, api_secret))
  /\ (forall e,
         load_op F "User" user_email
           (db (logged [lit "Configuration de l'acces API pour '"; VStr user_email;
                        lit "'..."] w)) = Err e ->
         snd (setup_api_access user_email w) = Ok (VNone, VNone)
         /\ rng w' = rng w
         /\ forall evs d, added w w' evs ->
                          ~ In (ESave d) evs /\ ~ In ECommit evs).
Proof.
  intros w'. subst w'. unfold logged, setup_api_access. split.
  - pos_cases; eexists _, _; reflexivity.
  - intros e. run_pos. intros Hload. rewrite Hload. run_pos.
    split; [reflexivity|]. split; [reflexivity|].
    intros evs d Hadd. added_events Hadd. simpl. intuition discriminate.
Qed.

(** No duplication error escapes [create_company], [create_warehouse],
    [create_price_list] or [create_customer]: whatever they raise is not a
    [DuplicateEntryError].  [create_pos_user] has no handler for it and
    lets it through. *)
Theorem no_duplicate_error_escapes (F : Frappe) (w : World F) (e : exn) :
  (snd (create_company w) = Err e -> is_duplicate e = false)
  /\ (forall c, snd (create_warehouse c w) = Err e -> is_duplicate e = false)
  /\ (snd (create_price_list w) = Err e -> is_duplicate e = false)
  /\ (snd (create_customer w) = Err e -> is_duplicate e = false)
  /\ (forall w1 msg,
         create_pos_user_try
           (logged [lit "Verification de l'utilisateur POS '"; VStr POS_USER_EMAIL;
                    lit "'..."] w) = (w1, Err (DuplicateEntryError msg)) ->
         snd (create_pos_user w) = Err (DuplicateEntryError msg)).
Proof.
  split; [|split; [|split; [|split]]].
  - unfold create_company. run_pos.
    destruct (create_company_try _) as [w1 [v|e1]]; [discriminate|].
    destruct e1; run_pos; intros H; inversion H; reflexivity.
  - intros c. unfold create_warehouse. run_pos.
    destruct (company_abbr (F := F) c) as [abbr|e0] eqn:Ea; run_pos.
    + destruct (create_warehouse_try c _ _) as [w1 [v|e1]]; [discriminate|].
      destruct e1; run_pos; intros H; inversion H; reflexivity.
    + intros H. inversion H; subst e0. unfold company_abbr in Ea.
      destruct (slice_to 2 c) as [v|e1] eqn:Es.
      * destruct v; cbn in Ea; inversion Ea; reflexivity.
      * inversion Ea; subst. destruct c; cbn in Es; inversion Es; reflexivity.
  - unfold create_price_list. run_pos.
    destruct (create_price_list_try _) as [w1 [v|e1]]; [discriminate|].
    destruct e1; run_pos; intros H; inversion H; reflexivity.
  - unfold create_customer. run_pos.
    destruct (create_customer_try _) as [w1 [v|e1]]; [discriminate|].
    destruct e1; run_pos; intros H; inversion H; reflexivity.
  - intros w1 msg H. now rewrite (create_pos_user_reraises w w1 _ H).
Qed.

(** [create_warehouse] takes the first two characters of the company name
    before its [try]: with a company name that is not a string it raises
    at once, with nothing printed or logged and no call to the framework,
    and what it raises is no duplication error. *)
Theorem create_warehouse_needs_a_name (F : Frappe) (company_name : value) (w : World F) :
  (forall s, company_name <> VStr s) ->
  exists e,
    create_warehouse company_name w = (w, Err e)
    /\ is_duplicate e = false.
Proof.
  intros Hc. unfold create_warehouse, company_abbr.
  destruct company_name as [| | | | s | l | d]; cbn [slice_to str_upper];
    try (eexists; split; reflexivity).
  exfalso. now apply (Hc s).
Qed.

(** The company name [None]. *)
Lemma create_warehouse_needs_a_name_witness :
  exists e, create_warehouse VNone Demo.prepared_site = (Demo.prepared_site, Err e).
Proof.
  destruct (create_warehouse_needs_a_name Demo.frappe VNone Demo.prepared_site)
    as (e & H & _); [discriminate|].
  exists e. exact H.
Defined.

(** ** setup_pos.py: sample items *)

(** [create_stock_entry] never raises: whatever fails inside is logged and
    the function returns.  It commits nothing, and the one document it
    gives to [insert] is a Material Receipt for the item and quantity, at
    the item's valuation rate, or at 100 when that is missing or zero. *)
Theorem create_stock_entry_never_raises (F : Frappe) (item_code : string)
  (warehouse : value) (qty : Z) (company : value) (w : World F) :
  let w' := fst (create_stock_entry item_code warehouse qty company w) in
  snd (create_stock_entry item_code warehouse qty company w) = Ok tt
  /\ forall evs,
       added w w' evs ->
       ~ In ECommit evs
       /\ forall d,
            In (EInsert d) evs ->
            exists valuation_rate,
              get_value_op F "Item" (VStr item_code) "valuation_rate" (db w)
              = Ok valuation_rate
              /\ d = [ ("doctype", VStr "Stock Entry");
                       ("stock_entry_type", VStr "Material Receipt");
                       ("company", company);
                       ("items",
                        VList [ VDict [ ("item_code", VStr item_code);
                                        ("t_warehouse", warehouse);
                                        ("qty", VInt qty);
                                        ("basic_rate",
                                         py_or valuation_rate (VInt 100)) ] ]) ].
Proof.
  intros w'. subst w'. unfold create_stock_entry. pos_cases.
  all: split; [reflexivity|].
  all: intros evs Hadd; added_events Hadd.
  all: split; [simpl; intuition discriminate|].
  all: intros d Hin; simpl in Hin.
  all: repeat (destruct Hin as [Hin|Hin]; try discriminate Hin); try contradiction.
  all: inversion Hin; subst; eexists; split; reflexivity.
Qed.

(** One turn of the loop over [SAMPLE_ITEMS] never raises and adds at most
    one entry to the list: none when the item could not be created, the
    entry marked as existing, or the entry marked as new.  The entry marked
    as new is added only after the item was looked up and not found.  The
    handler around the call of [create_stock_entry] never runs: no
    'Erreur stock pour' line is ever logged. *)
Theorem create_sample_item_adds_one_entry (F : Frappe)
  (company_name warehouse_name price_list_name : value) (created_items : list value)
  (it : item_data) (w : World F) :
  let r := create_sample_item company_name warehouse_name price_list_name
             created_items it w in
  exists l,
    snd r = Ok l
    /\ (l = created_items
        \/ l = (created_items ++ [item_exists_entry it])%list
        \/ (l = (created_items ++ [item_created_entry it])%list
            /\ exists_op F "Item" (VStr (item_code it)) (db w) = Ok false))
    /\ forall evs message title stock_error,
         added w (fst r) evs ->
         In (ELogError message title) evs ->
         message <> [lit "Erreur stock pour "; VStr (item_code it); lit ": ";
                     VStr stock_error].
Proof.
  intros r. subst r. unfold create_sample_item, create_stock_entry. pos_cases.
  all: eexists; split; [reflexivity|].
  all: split; [first [ left; reflexivity
                     | right; left; reflexivity
                     | right; right; split; reflexivity ] |].
  all: intros evs message title stock_error Hadd Hin; added_events Hadd.
  all: simpl in Hin.
  all: repeat (destruct Hin as [Hin|Hin]; try discriminate Hin); try contradiction.
  all: inversion Hin; subst; discriminate.
Qed.

Section ItemsFacts.
Context {F : Frappe}.

(** A computation bound to another returns only if it returns itself. *)
Lemma bind_ok {A B} (m : M F A) (k : A -> M F B) (w wf : World F) (b : B) :
  bind m k w = (wf, Ok b) ->
  exists w1 a, m w = (w1, Ok a) /\ k a w1 = (wf, Ok b).
Proof.
  unfold bind. destruct (m w) as [w1 [a|e]]; intros H; [eauto | discriminate].
Qed.

Lemma create_sample_item_result (c wh pl : value) (created : list value)
  (it : item_data) (w : World F) :
  exists l,
    snd (create_sample_item c wh pl created it w) = Ok l
    /\ (l = created
        \/ l = (created ++ [item_exists_entry it])%list
        \/ l = (created ++ [item_created_entry it])%list).
Proof.
  unfold create_sample_item, create_stock_entry. pos_cases.
  all: eexists; split; [reflexivity|].
  all: first [ left; reflexivity
             | right; left; reflexivity
             | right; right; reflexivity ].
Qed.

(** The loop appends, item after item, at most one entry each. *)
Lemma sample_items_loop (c wh pl : value) (items : list item_data)
  (created : list value) (w : World F) :
  exists extra,
    snd (for_each items created (create_sample_item c wh pl) w)
    = Ok (created ++ extra)%list
    /\ List.length extra <= List.length items
    /\ Forall (fun v => exists it,
                   In it items
                   /\ (v = item_exists_entry it \/ v = item_created_entry it))
         extra.
Proof.
  revert created w. induction items as [|it items IH]; intros created w.
  - exists []. cbn. rewrite app_nil_r. repeat split; [lia | constructor].
  - cbn [for_each]. unfold bind.
    destruct (create_sample_item_result c wh pl created it w) as (l & Hl & Hcase).
    destruct (create_sample_item c wh pl created it w) as [w1 r]. cbn in Hl. subst r.
    destruct (IH l w1) as (extra & Hr & Hlen & Hall).
    assert (Hmore : Forall (fun v => exists it0,
                               In it0 (it :: items)
                               /\ (v = item_exists_entry it0
                                   \/ v = item_created_entry it0)) extra).
    { eapply Forall_impl; [|exact Hall]. intros v (it0 & Hin & Hv).
      exists it0. split; [right; exact Hin | exact Hv]. }
    destruct Hcase as [-> | [-> | ->]].
    + exists extra. rewrite Hr. split; [reflexivity|]. split; [cbn; lia | exact Hmore].
    + exists (item_exists_entry it :: extra). rewrite Hr, <- app_assoc.
      split; [reflexivity|]. split; [cbn; lia|].
      constructor; [|exact Hmore]. exists it. split; [now left | now left].
    + exists (item_created_entry it :: extra). rewrite Hr, <- app_assoc.
      split; [reflexivity|]. split; [cbn; lia|].
      constructor; [|exact Hmore]. exists it. split; [now left | now right].
Qed.

End ItemsFacts.

(** What [create_sample_items] returns holds at most one entry for each of
    the five sample items, each either the entry for an item that exists
    or the entry for an item just created; an item whose creation failed
    has none. *)
Theorem create_sample_items_entries (F : Frappe)
  (company_name warehouse_name price_list_name : value) (w : World F)
  (created_items : list value) :
  snd (create_sample_items company_name warehouse_name price_list_name w)
  = Ok created_items ->
  List.length created_items <= 5
  /\ Forall (fun entry => exists it,
                 In it SAMPLE_ITEMS
                 /\ (entry = item_exists_entry it \/ entry = item_created_entry it))
       created_items.
Proof.
  unfold create_sample_items. intros H.
  destruct (bind _ _ w) as [wf r] eqn:E in H. cbn in H. subst r.
  repeat (apply bind_ok in E; destruct E as (? & ? & ? & E); cbv beta in E).
  inversion E; subst; clear E.
  match goal with
  | Hloop : for_each _ _ _ ?w0 = (_, Ok created_items) |- _ =>
      destruct (sample_items_loop company_name warehouse_name price_list_name
                  SAMPLE_ITEMS [] w0) as (extra & Hr & Hlen & Hall);
      rewrite Hloop in Hr; cbn in Hr; inversion Hr; subst; clear Hr
  end.
  split; [exact Hlen | exact Hall].
Qed.

(** On a site that has none of the items yet. *)
Lemma create_sample_items_entries_witness :
  exists created_items,
    snd (create_sample_items (F := Demo.frappe) (VStr "Myriad Retail")
           (VStr "Main Store - MY") (VStr "Standard Selling") Demo.bare_site)
    = Ok created_items
    /\ List.length created_items <= 5.
Proof.
  eassert (H : snd (create_sample_items (F := Demo.frappe) (VStr "Myriad Retail")
                      (VStr "Main Store - MY") (VStr "Standard Selling")
                      Demo.bare_site) = Ok _) by (vm_compute; reflexivity).
  eexists. split; [exact H|].
  exact (proj1 (create_sample_items_entries Demo.frappe _ _ _ _ _ H)).
Defined.

(** ** setup_pos.py: the credentials file, price list and customer *)

(** When [save_credentials] returns, the credentials are not lost: either
    the file [pos_credentials.json] of the bench holds them, dated with
    the current time, or they have been printed on the console; in that
    case every file is as it was or, where the dump failed on it, cut
    short.  [save_credentials] raises only what [json.dumps] raises in its
    handler: then the credentials are neither in the file nor on the
    console. *)
Theorem save_credentials_outcome (F : Frappe) (credentials_data : value)
  (w : World F) :
  let w' := fst (save_credentials credentials_data w) in
  (forall saved,
      snd (save_credentials credentials_data w) = Ok saved ->
      (exists bench_path,
          get_bench_path_op F (db w) = Ok bench_path
          /\ files w' (path_join bench_path "pos_credentials.json") = Content saved
          /\ getitem saved "generated_date" = Ok (VStr (now w)))
      \/ ((forall p, files w' p = files w p \/ files w' p = cut_short)
          /\ exists evs, added w w' evs /\ In (EPrintJson saved) evs))
  /\ (forall e,
         snd (save_credentials credentials_data w) = Err e ->
         (exists v, json_error w v = Some e)
         /\ (forall p, files w' p = files w p \/ files w' p = cut_short)
         /\ forall evs v, added w w' evs -> ~ In (EPrintJson v) evs).
Proof.
  intros w'. subst w'. unfold save_credentials, print_credentials. pos_cases.
  all: split; [intros saved Hs; inversion Hs; subst; clear Hs
              | intros e' He; inversion He; subst; clear He].
  all: try solve [ right; split;
                   [ intros p; cbn [files set_files];
                     first [ left; reflexivity
                           | destruct (String.eqb p _); [right|left]; reflexivity ]
                   | unfold added; cbn [trace emit set_db set_files];
                     match goal with
                     | |- exists evs, ?l = (evs ++ ?t)%list /\ _ =>
                         let p := events_before l t in
                         exists p; split; [reflexivity | simpl; tauto]
                     end ] ].
  all: try solve [ split; [eexists; eassumption|];
                   split;
                   [ intros p; cbn [files set_files];
                     first [ left; reflexivity
                           | destruct (String.eqb p _); [right|left]; reflexivity ]
                   | intros evs v Hadd; added_events Hadd; simpl;
                     intuition discriminate ] ].
  left. eexists. split; [reflexivity|]. split.
  - cbn [files set_files]. now rewrite String.eqb_refl.
  - destruct credentials_data; try discriminate.
    match goal with H : setitem _ _ _ = Ok _ |- _ => cbn in H; inversion H end.
    cbn [getitem]. now rewrite DictFacts.get_set_same.
Qed.

(** [create_price_list] returns nothing but 'Standard Selling'.  When the
    price list exists it inserts and commits nothing; what it inserts
    otherwise is the one selling price list in EUR, and it commits only
    after that insert went through. *)
Theorem create_price_list_outcome (F : Frappe) (w : World F) :
  let s := log_error_op F [lit "Verification de la liste de prix '";
                           VStr DEFAULT_PRICE_LIST; lit "'..."]
             "TailPOS Setup - Info" (db w) in
  let w' := fst (create_price_list w) in
  (forall v, snd (create_price_list w) = Ok v -> v = VStr DEFAULT_PRICE_LIST)
  /\ forall evs,
       added w w' evs ->
       (exists_op F "Price List" (VStr DEFAULT_PRICE_LIST) s = Ok true ->
        snd (create_price_list w) = Ok (VStr DEFAULT_PRICE_LIST)
        /\ (forall d, ~ In (EInsert d) evs) /\ ~ In ECommit evs)
       /\ (forall d, In (EInsert d) evs ->
                     d = price_list_payload
                     /\ exists_op F "Price List" (VStr DEFAULT_PRICE_LIST) s = Ok false)
       /\ (In ECommit evs ->
           exists s2 inserted,
             insert_op F price_list_payload
               (log_error_op F [lit "Creation de la liste de prix '";
                                VStr DEFAULT_PRICE_LIST; lit "'..."]
                  "TailPOS Setup - Info" s)
             = (s2, Ok inserted)).
Proof.
  intros s w'. subst s w'. unfold create_price_list, create_price_list_try. split.
  - intros v. pos_cases; intros H; inversion H; reflexivity.
  - intros evs. pos_cases; intros Hadd; added_events Hadd.
    all: split; [intros Hex;
                 first [ discriminate Hex
                       | split; [reflexivity|];
                         split; [intros d Hin|intros Hin]; simpl in Hin;
                         intuition discriminate ] |].
    all: split; [intros d Hin; simpl in Hin;
                 repeat (destruct Hin as [Hin|Hin]; try discriminate Hin);
                 try contradiction;
                 inversion Hin; subst; split; reflexivity |].
    all: intros Hin; simpl in Hin.
    all: repeat (destruct Hin as [Hin|Hin]; try discriminate Hin);
      try contradiction.
    all: eexists _, _; reflexivity.
Qed.

(** ** setup_pos.py: what a successful run hands out *)

Section MainFacts.
Context {F : Frappe}.

(** The pair [setup_api_access] returns is [(None, None)] or a key and a
    generated secret. *)
Lemma setup_api_access_result (user_email : string) (w wf : World F) (k s : value) :
  setup_api_access user_email w = (wf, Ok (k, s)) ->
  (k = VNone /\ s = VNone)
  \/ (truthy k = true /\ exists g, s = VStr (fst (generate_api_secret g))).
Proof.
  unfold setup_api_access. pos_cases; intros H; inversion H; subst; clear H.
  all: try (left; split; reflexivity).
  all: right; split.
  all: try match goal with
         | H : generate_api_secret ?g = (?s, _) |- exists _, VStr ?s = _ =>
             exists g; now rewrite H
         end.
  all: try assumption.
  all: match goal with
       | H : generate_api_key ?g = (?s, _) |- truthy (VStr ?s) = true =>
           replace s with (fst (generate_api_key g)) by now rewrite H
       end.
  all: apply TokenFacts.token_nonempty.
Qed.

(** The dict [create_pos_user] returns. *)
Lemma create_pos_user_result (w wf : World F) (u : value) :
  create_pos_user w = (wf, Ok u) ->
  exists k s,
    u = VDict [ ("email", VStr POS_USER_EMAIL);
                ("password", VStr POS_USER_PASSWORD);
                ("api_key", k);
                ("api_secret", s);
                ("roles", VList (map VStr required_roles)) ]
    /\ ((k = VNone /\ s = VNone)
        \/ (truthy k = true /\ exists g, s = VStr (fst (generate_api_secret g)))).
Proof.
  unfold create_pos_user. intros E.
  apply bind_ok in E. destruct E as (w1 & [] & _ & E).
  unfold try_except in E.
  destruct (create_pos_user_try w1) as [w2 [v|e]] eqn:Et.
  - inversion E; subst; clear E. unfold create_pos_user_try in Et.
    repeat (apply bind_ok in Et; destruct Et as (? & ? & ? & Et); cbv beta in Et).
    inversion Et; subst; clear Et.
    match goal with
    | H : setup_api_access _ _ = (_, Ok ?keys) |- _ =>
        destruct keys as [k s]; apply setup_api_access_result in H;
        exists k, s; split; [reflexivity | exact H]
    end.
  - revert E. run_pos. discriminate.
Qed.

(** [main_finish] returns only with a secret it can cut to ten
    characters, and the credentials then carry the user's dict. *)
Lemma main_finish_summary (c u wh pl cu p : value) (w wf : World F) (cred : value) :
  main_finish c u wh pl cu p w = (wf, Ok cred) ->
  getitem cred "pos_user" = Ok u
  /\ exists secret, getitem u "api_secret" = Ok secret /\ secret <> VNone.
Proof.
  unfold main_finish, save_credentials, print_credentials. pos_cases.
  all: intros H; inversion H; subst; clear H.
  all: repeat match goal with
         | H : setitem (VDict _) _ _ = _ |- _ =>
             cbn in H; inversion H; subst; clear H
         end.
  all: split; [reflexivity|].
  all: eexists; split; [reflexivity|].
  all: intros ->; discriminate.
Qed.

End MainFacts.

(** When [main] returns, the credentials it returns carry the POS user
    with the fixed e-mail address and password, an API key that is not
    empty and an API secret of 40 characters.  So a run in which
    [setup_api_access] gave up, which leaves key and secret [None], does
    not end well although that function raised nothing: the summary at the
    end of [main] fails on the secret, and [main] rolls back and raises. *)
Theorem main_returns_usable_credentials (F : Frappe) (w : World F)
  (credentials : value) :
  snd (main w) = Ok credentials ->
  exists api_key api_secret,
    getitem credentials "pos_user"
    = Ok (VDict [ ("email", VStr POS_USER_EMAIL);
                  ("password", VStr POS_USER_PASSWORD);
                  ("api_key", api_key);
                  ("api_secret", VStr api_secret);
                  ("roles", VList (map VStr required_roles)) ])
    /\ truthy api_key = true
    /\ String.length api_secret = 40.
Proof.
  intros H. destruct (main w) as [wf r] eqn:E. cbn in H. subst r.
  unfold main in E.
  do 4 (apply bind_ok in E; destruct E as (? & ? & _ & E)).
  unfold try_except in E.
  match type of E with
  | context [main_steps ?w0] => destruct (main_steps w0) as [w5 [v|e]] eqn:Es
  end.
  2: { revert E. run_pos. discriminate. }
  inversion E; subst; clear E. unfold main_steps in Es.
  apply bind_ok in Es. destruct Es as (w6 & names & Hbegin & Es).
  apply bind_ok in Es. destruct Es as (w7 & p & _ & Es).
  apply main_finish_summary in Es.
  destruct Es as (Hcred & secret & Hsecret & Hsome).
  unfold main_begin in Hbegin.
  repeat (apply bind_ok in Hbegin; destruct Hbegin as (? & ? & ? & Hbegin);
          cbv beta in Hbegin).
  inversion Hbegin; subst; clear Hbegin. cbn [pos_user_of] in *.
  match goal with
  | Hu : create_pos_user _ = (_, Ok _) |- _ =>
      apply create_pos_user_result in Hu;
      destruct Hu as (k & s & -> & Hkeys)
  end.
  cbn in Hsecret. inversion Hsecret; subst; clear Hsecret.
  destruct Hkeys as [[_ ->] | (Hk & g & ->)]; [now elim Hsome|].
  exists k, (fst (generate_api_secret g)).
  split; [exact Hcred|]. split; [exact Hk|].
  unfold generate_api_secret. apply SecretsFacts.token_length.
Qed.

(** A run on a site with its company and accounts. *)
Lemma main_returns_usable_credentials_witness :
  exists credentials api_key api_secret,
    snd (main (F := Demo.frappe) Demo.prepared_site) = Ok credentials
    /\ getitem credentials "pos_user"
       = Ok (VDict [ ("email", VStr POS_USER_EMAIL);
                     ("password", VStr POS_USER_PASSWORD);
                     ("api_key", api_key);
                     ("api_secret", VStr api_secret);
                     ("roles", VList (map VStr required_roles)) ])
    /\ String.length api_secret = 40.
Proof.
  eassert (H : snd (main (F := Demo.frappe) Demo.prepared_site) = Ok _)
    by (vm_compute; reflexivity).
  destruct (main_returns_usable_credentials Demo.frappe _ _ H)
    as (k & s & Hu & _ & Hlen).
  eexists _, k, s. split; [exact H|]. split; assumption.
Defined.

(** ** setup_pos.py: what a run leaves alone *)

Section WorldFacts.
Context {F : Frappe}.

(** What [frappe.get_doc] builds from a dict is that dict. *)
Lemma keep_new_doc {B} (I : World F -> Prop) (d : Doc) (k : Doc -> M F B) :
  run I (k d) (fun _ => True) ->
  run I (bind (frappe_new_doc d) k) (fun _ => True).
Proof.
  intros H w Hw. unfold bind, frappe_new_doc, reading.
  destruct (new_doc_op F d (db w)); [split; [exact Hw | exact Logic.I]|].
  apply H, Hw.
Qed.

(** A step that keeps [I] whatever it returns. *)
Lemma keep_step {A} (I : World F -> Prop) (m : M F A) :
  (forall w, I w -> I (fst (m w))) -> run I m (fun _ => True).
Proof. intros H w Hw. split; [now apply H | exact Logic.I]. Qed.

Lemma only_events_emit (allowed : Event -> Prop) (w0 w : World F) (ev : Event) :
  allowed ev -> only_events allowed w0 w -> only_events allowed w0 (emit ev w).
Proof.
  intros Hev (evs & Hadd & Hall). exists (ev :: evs). split.
  - unfold added in *. cbn [trace emit]. now rewrite Hadd.
  - intros ev' [<-|Hin]; auto.
Qed.

Lemma only_events_same (allowed : Event -> Prop) (w0 w w' : World F) :
  trace w' = trace w -> only_events allowed w0 w -> only_events allowed w0 w'.
Proof.
  intros Ht (evs & Hadd & Hall). exists evs. split; [|exact Hall].
  unfold added in *. now rewrite Ht.
Qed.

Lemma only_events_set_db (allowed : Event -> Prop) (w0 w : World F) (s : St F) :
  only_events allowed w0 w -> only_events allowed w0 (set_db s w).
Proof. now apply only_events_same. Qed.

Lemma only_events_set_rng (allowed : Event -> Prop) (w0 w : World F)
  (g : Secrets.Rng) :
  only_events allowed w0 w -> only_events allowed w0 (set_rng g w).
Proof. now apply only_events_same. Qed.

Lemma only_events_set_files (allowed : Event -> Prop) (w0 w : World F)
  (fs : string -> file) :
  only_events allowed w0 w -> only_events allowed w0 (set_files fs w).
Proof. now apply only_events_same. Qed.

Lemma only_events_start (allowed : Event -> Prop) (w0 : World F) :
  only_events allowed w0 w0.
Proof. exists []. split; [reflexivity | intros ev []]. Qed.

(** The events of a run are determined by its two ends. *)
Lemma only_events_added (allowed : Event -> Prop) (w0 w : World F) (evs : list Event) :
  only_events allowed w0 w -> added w0 w evs -> forall ev, In ev evs -> allowed ev.
Proof.
  intros (evs' & Hadd' & Hall) Hadd. unfold added in *. rewrite Hadd' in Hadd.
  apply app_inv_tail in Hadd. now subst.
Qed.

(** [save_credentials] writes to [pos_credentials.json] of the bench and
    to no other file. *)
Lemma save_credentials_file (credentials_data : value) (w : World F) (p : string) :
  (forall s bench_path,
      get_bench_path_op F s = Ok bench_path ->
      p <> path_join bench_path "pos_credentials.json") ->
  files (fst (save_credentials credentials_data w)) p = files w p.
Proof.
  intros Hp. unfold save_credentials, print_credentials. pos_cases.
  all: try reflexivity.
  all: match goal with
       | |- (if String.eqb ?p0 ?q then _ else _) = _ =>
           destruct (String.eqb_spec p0 q) as [->|]; [|reflexivity]
       end.
  all: exfalso; eapply Hp; [eassumption | reflexivity].
Qed.

Lemma save_credentials_events (allowed : Event -> Prop) (credentials_data : value)
  (w0 w : World F) :
  (forall t, allowed (EPrint t)) ->
  (forall m t, allowed (ELogError m t)) ->
  (forall v, allowed (EPrintJson v)) ->
  only_events allowed w0 w ->
  only_events allowed w0 (fst (save_credentials credentials_data w)).
Proof.
  intros H1 H2 H3 Hw. unfold save_credentials, print_credentials. pos_cases.
  all: repeat first [ exact Hw
                    | apply only_events_emit; [solve [auto]|]
                    | apply only_events_set_db
                    | apply only_events_set_files ].
Qed.

End WorldFacts.

(** Unfolds the functions of [setup_pos.py] down to the framework calls,
    [save_credentials] apart. *)
Ltac unfold_setup_pos :=
  unfold main_steps, main_begin, main_finish, create_company, create_company_try,
    create_pos_user, create_pos_user_try, setup_api_access, create_warehouse,
    create_warehouse_try, create_price_list, create_price_list_try,
    create_pos_profile, create_pos_profile_try, create_customer, create_customer_try,
    create_sample_items, create_sample_item, create_stock_entry.

(** Closes [run I m (fun _ => True)] for a framework call [m], with
    [close] for what is left of [I] once the call is computed. *)
Ltac keep_call close :=
  lazymatch goal with
  | |- run _ (save_credentials _) _ => fail
  | |- run _ _ _ =>
      apply keep_step;
      let w := fresh "w" in
      let Hw := fresh "Hw" in
      intros w Hw; run_pos; repeat (break_scrutinee; run_pos); close Hw
  end.

(** Decomposes [run I m (fun _ => True)] down to the framework calls. *)
Ltac keep_world close :=
  repeat match goal with
    | |- run _ (bind (frappe_new_doc _) _) _ => apply keep_new_doc
    | |- run _ (bind _ _) _ => apply keep_bind; [ | intros ]
    | |- run _ (try_except _ _) _ => apply keep_try_except; [ | intros ]
    | |- run _ (if ?b then _ else _) _ => destruct b
    | |- run _ (match ?x with _ => _ end) _ => destruct x
    | |- run _ (ret _) _ => apply run_ret; exact Logic.I
    | |- run _ (raise _) _ => apply run_raise; exact Logic.I
    | |- run _ (lift _) _ => apply run_lift; exact Logic.I
    | |- run _ (for_each _ _ _) _ => apply run_for_each; intros
    | |- run _ _ _ => progress cbv zeta
    | |- run _ _ _ => keep_call close
    end.

Ltac close_file Hw := unfold file_kept in *; cbn [files]; exact Hw.

(** [allowed] stands for how an event is shown to be allowed. *)
Ltac close_events allowed Hw :=
  repeat first [ exact Hw
               | apply only_events_emit; [allowed|]
               | apply only_events_set_db
               | apply only_events_set_rng
               | apply only_events_set_files ].

Ltac role_or_other :=
  first [ exact Logic.I
        | eexists; split; [|reflexivity]; cbn; tauto ].

Ltac close_user Hw := close_events role_or_other Hw.

Ltac close_forward Hw := close_events ltac:(exact Logic.I) Hw.

(** [main] writes no file but [pos_credentials.json] of the bench,
    whether it returns or raises: [site_config.json] in particular is as
    it was. *)
Theorem main_writes_only_credentials_file (F : Frappe) (w : World F) (p : string) :
  (forall s bench_path,
      get_bench_path_op F s = Ok bench_path ->
      p <> path_join bench_path "pos_credentials.json") ->
  files (fst (main w)) p = files w p.
Proof.
  intros Hp.
  assert (Hrun : run (file_kept p w) main (fun _ => True)).
  { unfold main. unfold_setup_pos. keep_world close_file.
    apply keep_step. intros w1 Hw1. unfold file_kept in *.
    now rewrite save_credentials_file. }
  exact (proj1 (Hrun w eq_refl)).
Qed.

(** The site configuration of a run on a prepared site. *)
Lemma main_writes_only_credentials_file_witness :
  files (fst (main (F := Demo.frappe) Demo.prepared_site))
    "./pos.localhost/site_config.json"
  = files Demo.prepared_site "./pos.localhost/site_config.json".
Proof.
  apply (main_writes_only_credentials_file Demo.frappe).
  intros s bench_path H. inversion H. vm_compute. discriminate.
Defined.

(** For a user that exists already [create_pos_user] sets no password and
    inserts no user: all it may insert are missing roles.  The dict it
    returns states the password 'pos_password_123' all the same, whatever
    the password of that user is. *)
Theorem create_pos_user_leaves_existing_user (F : Frappe) (w : World F)
  (evs : list Event) :
  exists_op F "User" (VStr POS_USER_EMAIL)
    (db (logged [lit "Verification de l'utilisateur POS '"; VStr POS_USER_EMAIL;
                 lit "'..."] w)) = Ok true ->
  added w (fst (create_pos_user w)) evs ->
  (forall doctype name field v, ~ In (ESetValue doctype name field v) evs)
  /\ (forall d,
         In (EInsert d) evs ->
         exists role_name,
           In role_name required_roles
           /\ d = [ ("doctype", VStr "Role"); ("role_name", VStr role_name) ])
  /\ (forall u,
         snd (create_pos_user w) = Ok u ->
         getitem u "password" = Ok (VStr POS_USER_PASSWORD)).
Proof.
  intros Hex Hadd.
  assert (HI : only_events no_user_write w (fst (create_pos_user w))).
  { clear Hadd. unfold create_pos_user.
    match goal with
    | |- context [bind (log_info ?m) ?k w] =>
        change (bind (log_info m) k w) with (k tt (logged m w))
    end.
    cbv beta. unfold create_pos_user_try.
    match goal with
    | |- context [try_except (bind ?m ?k) ?h ?w1] =>
        replace (try_except (bind m k) h w1) with (try_except (k true) h w1)
          by (unfold try_except;
              rewrite (bind_returns m k w1 w1 true);
              [reflexivity | unfold frappe_db_exists, reading; now rewrite Hex])
    end.
    cbv beta iota.
    match goal with
    | |- only_events _ _ (fst (try_except ?m ?h ?w1)) =>
        assert (Hrun : run (only_events no_user_write w) (try_except m h)
                         (fun _ => True));
        [ | apply (Hrun w1) ]
    end.
    - unfold setup_api_access, required_roles. cbn [for_each].
      keep_world close_user.
    - unfold logged. run_pos. close_user (only_events_start no_user_write w). }
  split; [|split].
  - intros doctype name field v Hin.
    exact (only_events_added _ _ _ _ HI Hadd _ Hin).
  - intros d Hin. exact (only_events_added _ _ _ _ HI Hadd _ Hin).
  - intros u Hu. destruct (create_pos_user w) as [wf r] eqn:E. cbn in Hu. subst r.
    apply create_pos_user_result in E. destruct E as (k & s & -> & _). reflexivity.
Qed.

(** On a site where the user is registered. *)
Lemma create_pos_user_leaves_existing_user_witness :
  let w := DemoSites.pos_user_site in
  let evs := new_events w (fst (create_pos_user (F := Demo.frappe) w)) in
  added w (fst (create_pos_user w)) evs
  /\ forall doctype name field v, ~ In (ESetValue doctype name field v) evs.
Proof.
  intros w evs.
  assert (Hadd : added w (fst (create_pos_user w)) evs) by (vm_compute; reflexivity).
  split; [exact Hadd|].
  refine (proj1 (create_pos_user_leaves_existing_user Demo.frappe w evs _ Hadd)).
  vm_compute. reflexivity.
Defined.

(** A run of [main] that returns has rolled nothing back: what the steps
    committed stands. *)
Theorem main_returns_without_rollback (F : Frappe) (w : World F)
  (credentials : value) (evs : list Event) :
  snd (main w) = Ok credentials ->
  added w (fst (main w)) evs ->
  ~ In ERollback evs.
Proof.
  intros H Hadd Hin. destruct (main w) as [wf r] eqn:E. cbn in H. subst r.
  cbn [fst] in Hadd. unfold main in E.
  do 4 (apply bind_ok in E; destruct E as (? & [] & ? & E)).
  repeat match goal with
         | Hp : print _ _ = (_, Ok tt) |- _ => inversion Hp; subst; clear Hp
         end.
  unfold try_except in E.
  match type of E with
  | context [main_steps ?w0] => destruct (main_steps w0) as [w5 [v|e]] eqn:Es
  end.
  2: { revert E. run_pos. discriminate. }
  inversion E; subst; clear E.
  assert (Hrun : run (only_events no_rollback w) (main_steps (F := F))
                   (fun _ => True)).
  { unfold_setup_pos. keep_world close_forward.
    apply keep_step. intros w1 Hw1.
    apply save_credentials_events; [intros; exact Logic.I ..| exact Hw1]. }
  match type of Es with
  | main_steps ?w0 = _ =>
      assert (H0 : only_events no_rollback w w0)
        by (close_forward (only_events_start no_rollback w));
      pose proof (proj1 (Hrun w0 H0)) as HI
  end.
  rewrite Es in HI. cbn [fst] in HI.
  exact (only_events_added _ _ _ _ HI Hadd _ Hin).
Qed.

(** A run on a prepared site. *)
Lemma main_returns_without_rollback_witness :
  let w := Demo.prepared_site in
  let evs := new_events w (fst (main (F := Demo.frappe) w)) in
  (exists credentials, snd (main w) = Ok credentials)
  /\ added w (fst (main w)) evs
  /\ ~ In ERollback evs.
Proof.
  intros w evs.
  eassert (H : snd (main (F := Demo.frappe) w) = Ok _) by (vm_compute; reflexivity).
  assert (Hadd : added w (fst (main w)) evs) by (vm_compute; reflexivity).
  split; [eexists; exact H|]. split; [exact Hadd|].
  exact (main_returns_without_rollback Demo.frappe w _ evs H Hadd).
Defined.

(** ** cors_config.py: the files it writes *)

Section CorsFiles.
Context {F : Frappe}.
Variable p : string.
Hypothesis Hp : forall s, get_site_path_op F "site_config.json" s <> Ok p.

(** Settles a goal on the file at [p] once the function is computed. *)
Ltac other_file :=
  try reflexivity;
  match goal with
  | |- (if String.eqb p ?q then _ else _) = _ =>
      destruct (String.eqb_spec p q) as [->|]; [|reflexivity]
  end;
  exfalso; eapply Hp; eassumption.

Lemma enable_cors_file (origins : value) (w : World F) :
  files (fst (enable_cors origins w)) p = files w p.
Proof. unfold enable_cors. cors_cases; other_file. Qed.

Lemma configure_api_settings_file (rate_limit rate_limit_window : value)
  (w : World F) :
  files (fst (configure_api_settings rate_limit rate_limit_window w)) p = files w p.
Proof. unfold configure_api_settings. cors_cases; other_file. Qed.

Lemma disable_csrf_file (w : World F) :
  files (fst (disable_csrf w)) p = files w p.
Proof. unfold disable_csrf. cors_cases; other_file. Qed.

Lemma check_cors_config_file (w : World F) :
  files (fst (check_cors_config w)) p = files w p.
Proof. destruct (check_cors_config_pure w) as (s & _ & H & _). apply H. Qed.

Lemma setup_for_tailpos_file (w : World F) :
  files (fst (setup_for_tailpos w)) p = files w p.
Proof.
  assert (Hrun : run (file_kept p w) (setup_for_tailpos (F := F)) (fun _ => True)).
  { unfold setup_for_tailpos. keep_world close_file.
    all: apply keep_step; intros w1 Hw1; unfold file_kept in *.
    - now rewrite enable_cors_file.
    - now rewrite configure_api_settings_file.
    - now rewrite check_cors_config_file. }
  exact (proj1 (Hrun w eq_refl)).
Qed.

End CorsFiles.

(** The functions of [cors_config.py] write no file but
    [site_config.json] of the site: a file at a path that
    [frappe.get_site_path] does not answer is as it was, after
    [setup_for_tailpos] and after each of the writers on its own. *)
Theorem cors_config_writes_only_site_config (F : Frappe) (w : World F) (p : string) :
  (forall s, get_site_path_op F "site_config.json" s <> Ok p) ->
  files (fst (setup_for_tailpos w)) p = files w p
  /\ (forall origins, files (fst (enable_cors origins w)) p = files w p)
  /\ (forall rate_limit rate_limit_window,
         files (fst (configure_api_settings rate_limit rate_limit_window w)) p
         = files w p)
  /\ files (fst (disable_csrf w)) p = files w p.
Proof.
  intros Hp. split; [|split; [|split]].
  - now apply setup_for_tailpos_file.
  - intros origins. now apply enable_cors_file.
  - intros rate_limit rate_limit_window. now apply configure_api_settings_file.
  - now apply disable_csrf_file.
Qed.

(** The credentials file of the bench, on a site with a config. *)
Lemma cors_config_writes_only_site_config_witness :
  let w := DemoSites.settings_site in
  let p := "/home/frappe/frappe-bench/pos_credentials.json" in
  files (fst (setup_for_tailpos (F := Demo.frappe) w)) p = files w p.
Proof.
  intros w p.
  refine (proj1 (cors_config_writes_only_site_config Demo.frappe w p _)).
  intros s H. vm_compute in H. discriminate H.
Defined.
